(** * Product curation service: scoring, candidate selection and the
      rule-based / LLM two-stage pipeline

    Shallow embedding of [curation-service/app/scoring.py],
    [curation-service/app/llm_client.py] and the [/curate] handler of
    [curation-service/app/main.py].

    Conventions of the embedding.
    - Python [float] scores are idealised as exact rationals ([Q]); every
      constant of the source is a short decimal, so the tables and weights
      are represented exactly.  Equalities between computed scores are
      stated with [==] ([Qeq]); a sum of several terms can differ from the
      float the source computes in its last binary digit.
    - The numbers of a decoded JSON text are finite; an integer too large
      for [float] makes the conversion fail, as [OverflowError] does.
    - Python [str] is [string]; [str.lower] acts on the ASCII letters.
    - [Product] instances are shared mutable objects: they live in a store
      ([heap]) and lists of products are lists of addresses, so that the
      in-place assignments of [score_products] are visible through every
      alias, as in the source. *)

From Stdlib Require Import Ascii String QArith Qminmax Lqa.
From stdpp Require Import base decidable option list sorting gmap strings pretty.

Local Open Scope string_scope.
Local Open Scope list_scope.
Local Open Scope Z_scope.

(** ** Python string helpers *)

Module PyStr.

Definition lower_ascii (c : ascii) : ascii :=
  let n := Ascii.N_of_ascii c in
  if ((65 <=? n) && (n <=? 90))%N then Ascii.ascii_of_N (n + 32) else c.

(** [s.lower()] *)
Fixpoint lower (s : string) : string :=
  match s with
  | EmptyString => EmptyString
  | String c r => String (lower_ascii c) (lower r)
  end.

(** [needle in hay] for two strings (substring test). *)
Fixpoint contains (needle hay : string) : bool :=
  String.prefix needle hay ||
  match hay with
  | EmptyString => false
  | String _ r => contains needle r
  end.

(** Truth value of an [Optional[str]]: [None] and the empty string are
    false. *)
Definition truthy (o : option string) : bool :=
  match o with
  | Some s => negb (String.eqb s "")
  | None => false
  end.

(** [o or d] for an [Optional[str]] [o] and a string [d]. *)
Definition or_else (o : option string) (d : string) : string :=
  match o with
  | Some s => if String.eqb s "" then d else s
  | None => d
  end.

(** [a < b] on strings: lexicographic on code points. *)
Definition ltb (a b : string) : bool :=
  match String.compare a b with Lt => true | _ => false end.

End PyStr.

(** [x < y] on numbers. *)
Definition Qltb (x y : Q) : bool :=
  match (x ?= y)%Q with Lt => true | _ => false end.

(** [l[:n]] for a Python list and an arbitrary integer [n]: a negative
    bound counts from the end. *)
Definition py_slice_to {A} (l : list A) (n : Z) : list A :=
  if 0 <=? n then take (Z.to_nat n) l
  else take (length l - Z.to_nat (- n)) l.

(** ** Data model ([models.py]) *)

Record Location := {
  loc_city : option string;
  loc_state : option string;
  loc_address : option string;
  loc_country : option string;
  loc_postcode : option string
}.

(** [Profile] allows extra attributes; the five the code reads with
    [getattr(profile, ..., None)] are the [flat_*] fields.  They are the
    questionnaire's string answers: an extra attribute of another type,
    which the model class also admits and on which [.lower()] raises, is
    not a value of this record. *)
Record Profile := {
  tier : option string;
  location : option Location;
  venueType : string;
  cuisineStyle : option string;
  budgetBand : option string;
  flat_city : option string;
  flat_state : option string;
  flat_country : option string;
  flat_address : option string;
  flat_postcode : option string
}.

Record Product := {
  id : string;
  sku : option string;
  name : string;
  product_web_description : option string;
  supplier : option string;
  brand : option string;
  country : option string;
  region : option string;
  visibility : option string;
  category_level_1 : option string;
  category_level_2 : option string;
  category_level_3 : option string;
  category_level_4 : option string;
  sold_at_cairns : option Z;
  sold_at_brisbane : option Z;
  sold_at_adelaide : option Z;
  sold_at_melbourne : option Z;
  sold_at_sydney : option Z;
  tags : option (list string);
  origin : option string;
  supplier_tier : option string;
  is_bundle : bool;
  locality_score : Q;
  category_fitness : Q;
  supplier_boost : Q;
  composite_score : Q
}.

(** The four attribute assignments of the scoring loop. *)
Definition set_locality_score (p : Product) (v : Q) : Product :=
  {| id := id p; sku := sku p; name := name p;
     product_web_description := product_web_description p;
     supplier := supplier p; brand := brand p; country := country p;
     region := region p; visibility := visibility p;
     category_level_1 := category_level_1 p;
     category_level_2 := category_level_2 p;
     category_level_3 := category_level_3 p;
     category_level_4 := category_level_4 p;
     sold_at_cairns := sold_at_cairns p;
     sold_at_brisbane := sold_at_brisbane p;
     sold_at_adelaide := sold_at_adelaide p;
     sold_at_melbourne := sold_at_melbourne p;
     sold_at_sydney := sold_at_sydney p;
     tags := tags p; origin := origin p; supplier_tier := supplier_tier p;
     is_bundle := is_bundle p;
     locality_score := v;
     category_fitness := category_fitness p;
     supplier_boost := supplier_boost p;
     composite_score := composite_score p |}.

Definition set_category_fitness (p : Product) (v : Q) : Product :=
  {| id := id p; sku := sku p; name := name p;
     product_web_description := product_web_description p;
     supplier := supplier p; brand := brand p; country := country p;
     region := region p; visibility := visibility p;
     category_level_1 := category_level_1 p;
     category_level_2 := category_level_2 p;
     category_level_3 := category_level_3 p;
     category_level_4 := category_level_4 p;
     sold_at_cairns := sold_at_cairns p;
     sold_at_brisbane := sold_at_brisbane p;
     sold_at_adelaide := sold_at_adelaide p;
     sold_at_melbourne := sold_at_melbourne p;
     sold_at_sydney := sold_at_sydney p;
     tags := tags p; origin := origin p; supplier_tier := supplier_tier p;
     is_bundle := is_bundle p;
     locality_score := locality_score p;
     category_fitness := v;
     supplier_boost := supplier_boost p;
     composite_score := composite_score p |}.

Definition set_supplier_boost (p : Product) (v : Q) : Product :=
  {| id := id p; sku := sku p; name := name p;
     product_web_description := product_web_description p;
     supplier := supplier p; brand := brand p; country := country p;
     region := region p; visibility := visibility p;
     category_level_1 := category_level_1 p;
     category_level_2 := category_level_2 p;
     category_level_3 := category_level_3 p;
     category_level_4 := category_level_4 p;
     sold_at_cairns := sold_at_cairns p;
     sold_at_brisbane := sold_at_brisbane p;
     sold_at_adelaide := sold_at_adelaide p;
     sold_at_melbourne := sold_at_melbourne p;
     sold_at_sydney := sold_at_sydney p;
     tags := tags p; origin := origin p; supplier_tier := supplier_tier p;
     is_bundle := is_bundle p;
     locality_score := locality_score p;
     category_fitness := category_fitness p;
     supplier_boost := v;
     composite_score := composite_score p |}.

Definition set_composite_score (p : Product) (v : Q) : Product :=
  {| id := id p; sku := sku p; name := name p;
     product_web_description := product_web_description p;
     supplier := supplier p; brand := brand p; country := country p;
     region := region p; visibility := visibility p;
     category_level_1 := category_level_1 p;
     category_level_2 := category_level_2 p;
     category_level_3 := category_level_3 p;
     category_level_4 := category_level_4 p;
     sold_at_cairns := sold_at_cairns p;
     sold_at_brisbane := sold_at_brisbane p;
     sold_at_adelaide := sold_at_adelaide p;
     sold_at_melbourne := sold_at_melbourne p;
     sold_at_sydney := sold_at_sydney p;
     tags := tags p; origin := origin p; supplier_tier := supplier_tier p;
     is_bundle := is_bundle p;
     locality_score := locality_score p;
     category_fitness := category_fitness p;
     supplier_boost := supplier_boost p;
     composite_score := v |}.

(** The store of [Product] objects.  An address is an object identity;
    the catalog and every list derived from it hold addresses. *)
Definition addr := nat.
Definition heap := addr -> Product.

Definition heap_set (h : heap) (a : addr) (p : Product) : heap :=
  fun b => if Nat.eqb b a then p else h b.

(** ** Scoring engine ([scoring.py], class [ProductScorer]) *)

Module ProductScorer.

Local Open Scope Q_scope.

(** [self.venue_weights[venue].get(category, ...)]: one row per venue
    type, as a function of the category key; [None] when the key is
    absent from the row. *)
Definition venue_row := string -> option Q.

Definition row (wine champagne sparkling spirits beer default : Q)
  : venue_row := fun k =>
  if String.eqb k "wine" then Some wine
  else if String.eqb k "champagne" then Some champagne
  else if String.eqb k "sparkling" then Some sparkling
  else if String.eqb k "spirits" then Some spirits
  else if String.eqb k "beer" then Some beer
  else if String.eqb k "default" then Some default
  else None.

Definition restaurant_weights : venue_row := row 1.0 0.8 0.8 0.3 0.2 0.5.

Definition venue_weights (venue : string) : option venue_row :=
  if String.eqb venue "restaurant" then Some restaurant_weights
  else if String.eqb venue "fine dining" then Some (row 1.0 1.0 0.9 0.4 0.1 0.6)
  else if String.eqb venue "bistro" then Some (row 0.9 0.6 0.7 0.4 0.3 0.5)
  else if String.eqb venue "bar" then Some (row 0.6 0.4 0.5 0.9 0.8 0.7)
  else if String.eqb venue "cafe" then Some (row 0.3 0.2 0.3 0.2 0.4 0.4)
  else None.

Definition supplier_weights (k : string) : option Q :=
  if String.eqb k "platinum" then Some 1.0
  else if String.eqb k "gold" then Some 0.8
  else if String.eqb k "silver" then Some 0.6
  else if String.eqb k "bronze" then Some 0.4
  else if String.eqb k "default" then Some 0.5
  else None.

(** The [location] dictionary built by [_get_location_from_profile]. *)
Definition _get_location_from_profile (profile : Profile) : Location :=
  match location profile with
  | Some l => l
  | None =>
      {| loc_city := flat_city profile; loc_state := flat_state profile;
         loc_address := flat_address profile;
         loc_country := flat_country profile;
         loc_postcode := flat_postcode profile |}
  end.

Definition sold (flag : option Z) : bool :=
  match flag with Some 1%Z => true | _ => false end.

(** The [if / elif] chain on the resolved city. *)
Definition city_available (city_lower : string) (product : Product) : bool :=
  if String.eqb city_lower "sydney" && sold (sold_at_sydney product) then true
  else if String.eqb city_lower "melbourne" && sold (sold_at_melbourne product) then true
  else if String.eqb city_lower "brisbane" && sold (sold_at_brisbane product) then true
  else if String.eqb city_lower "adelaide" && sold (sold_at_adelaide product) then true
  else if String.eqb city_lower "cairns" && sold (sold_at_cairns product) then true
  else false.

Definition get (o : option string) : string := default "" o.

Definition _calculate_locality_score (product : Product) (profile : Profile) : Q :=
  let score := 0.0 in
  let location := _get_location_from_profile profile in
  let score :=
    if PyStr.truthy (loc_city location) then
      if city_available (PyStr.lower (get (loc_city location))) product
      then score + 0.3 else score
    else score in
  let score :=
    if PyStr.truthy (loc_state location) && PyStr.truthy (region product) then
      if PyStr.contains (PyStr.lower (get (loc_state location)))
                        (PyStr.lower (get (region product)))
      then score + 0.2 else score
    else score in
  let score :=
    if PyStr.truthy (loc_country location) && PyStr.truthy (country product) then
      if PyStr.contains (PyStr.lower (get (loc_country location)))
                        (PyStr.lower (get (country product)))
      then score + 0.2 else score
    else score in
  let score :=
    if PyStr.truthy (origin product) && PyStr.truthy (loc_country location) then
      if PyStr.contains (PyStr.lower (get (loc_country location)))
                        (PyStr.lower (get (origin product)))
      then score + 0.1 else score
    else score in
  Qmin score 1.0.

(** The body of the loop of [_extract_category] for one level. *)
Definition classify (level : option string) : option string :=
  if PyStr.truthy level then
    let category := PyStr.lower (get level) in
    if PyStr.contains "wine" category then Some "wine"
    else if PyStr.contains "champagne" category then Some "champagne"
    else if PyStr.contains "sparkling" category then Some "sparkling"
    else if PyStr.contains "spirit" category then Some "spirits"
    else if PyStr.contains "beer" category then Some "beer"
    else if PyStr.contains "liquor" category then Some "spirits"
    else None
  else None.

Definition _extract_category (product : Product) : string :=
  match classify (category_level_1 product) with
  | Some c => c
  | None =>
    match classify (category_level_2 product) with
    | Some c => c
    | None =>
      match classify (category_level_3 product) with
      | Some c => c
      | None => "default"
      end
    end
  end.

Definition _calculate_category_fitness (product : Product) (profile : Profile) : Q :=
  let venue_type := PyStr.lower (venueType profile) in
  let cuisine_style := PyStr.lower (PyStr.or_else (cuisineStyle profile) "") in
  let weights := default restaurant_weights (venue_weights venue_type) in
  let category := _extract_category product in
  let base_weight := default (default 0 (weights "default")) (weights category) in
  let base_weight :=
    if String.eqb venue_type "fine dining" && String.eqb cuisine_style "fine dining" then
      if String.eqb category "champagne" || String.eqb category "sparkling"
      then base_weight + 0.2 else base_weight
    else base_weight in
  let base_weight :=
    if is_bundle product then base_weight + 0.1 else base_weight in
  Qmin base_weight 1.0.

Definition _calculate_supplier_boost (product : Product) : Q :=
  if negb (PyStr.truthy (supplier_tier product)) then 0.5
  else
    let tier := PyStr.lower (get (supplier_tier product)) in
    default 0.5 (supplier_weights tier).

Definition _calculate_composite_score (product : Product) : Q :=
  let locality_weight := 0.3 in
  let category_weight := 0.4 in
  let supplier_weight := 0.2 in
  let bundle_weight := 0.1 in
  let score :=
    locality_weight * locality_score product +
    category_weight * category_fitness product +
    supplier_weight * supplier_boost product +
    bundle_weight * (if is_bundle product then 0.1 else 0.0) in
  Qmin score 1.0.

(** The weighted combination of [_calculate_composite_score] as a
    function of the values it reads. *)
Definition composite_of (l c s : Q) (b : bool) : Q :=
  Qmin (0.3 * l + 0.4 * c + 0.2 * s + 0.1 * (if b then 0.1 else 0.0))%Q 1.0%Q.

(** A product with its four computed fields replaced. *)
Definition with_scores (p : Product) (l c s k : Q) : Product :=
  set_composite_score
    (set_supplier_boost (set_category_fitness (set_locality_score p l) c) s) k.

(** Net effect of the loop body on the object it visits. *)
Definition rescore (profile : Profile) (p : Product) : Product :=
  let p := set_locality_score p (_calculate_locality_score p profile) in
  let p := set_category_fitness p (_calculate_category_fitness p profile) in
  let p := set_supplier_boost p (_calculate_supplier_boost p) in
  set_composite_score p (_calculate_composite_score p).

(** The loop body of [score_products]: four assignments on the object at
    [a]; each right-hand side reads the object as it then stands. *)
Definition score_in_place (profile : Profile) (h : heap) (a : addr) : heap :=
  let h := heap_set h a
    (set_locality_score (h a) (_calculate_locality_score (h a) profile)) in
  let h := heap_set h a
    (set_category_fitness (h a) (_calculate_category_fitness (h a) profile)) in
  let h := heap_set h a
    (set_supplier_boost (h a) (_calculate_supplier_boost (h a))) in
  heap_set h a (set_composite_score (h a) (_calculate_composite_score (h a))).

(** [p.visibility == "4"] *)
Definition is_visible (p : Product) : bool :=
  match visibility p with
  | Some v => String.eqb v "4"
  | None => false
  end.

(** The key of the [sorted] call. *)
Definition sort_key (p : Product) : Q * Q * string :=
  (composite_score p,
   default 0 (supplier_weights (PyStr.or_else (supplier_tier p) "default")),
   PyStr.or_else (supplier p) "").

(** [k1 < k2] on key tuples: the first component that differs decides. *)
Definition key_ltb (k1 k2 : Q * Q * string) : bool :=
  let '(c1, w1, s1) := k1 in
  let '(c2, w2, s2) := k2 in
  match c1 ?= c2 with
  | Lt => true
  | Gt => false
  | Eq =>
      match w1 ?= w2 with
      | Lt => true
      | Gt => false
      | Eq => PyStr.ltb s1 s2
      end
  end.

(** [sorted(l, key=key, reverse=True)]: descending by key, elements
    with equal keys keep their input order (the sort is stable). *)
Fixpoint insert_desc {A K} (ltb : K -> K -> bool) (key : A -> K)
    (x : A) (l : list A) : list A :=
  match l with
  | [] => [x]
  | y :: ys =>
      if ltb (key x) (key y) then y :: insert_desc ltb key x ys
      else x :: y :: ys
  end.

Definition sorted_reverse {A K} (ltb : K -> K -> bool) (key : A -> K)
    (l : list A) : list A :=
  foldr (insert_desc ltb key) [] l.

Definition score_products (h : heap) (products : list addr)
    (profile : Profile) : heap * list addr :=
  let visible_products := filter (fun a => is_visible (h a) = true) products in
  let h := foldl (score_in_place profile) h visible_products in
  let scored_products :=
    sorted_reverse key_ltb (fun a => sort_key (h a)) visible_products in
  (h, scored_products).

(** The loop of [select_candidates]; [seen_combinations] is a set of
    pairs, as in the source. *)
Fixpoint select_loop (h : heap) (scored_products : list addr) (top_k : Z)
    (candidates : list addr) (seen_combinations : gset (string * string))
    : list addr :=
  match scored_products with
  | [] => candidates
  | product :: rest =>
      if (top_k <=? Z.of_nat (length candidates))%Z then candidates
      else
        let brand := PyStr.or_else (brand (h product)) "unknown" in
        let category := PyStr.or_else (category_level_1 (h product)) "unknown" in
        let diversity_key := (PyStr.lower brand, PyStr.lower category) in
        let count :=
          length (filter (fun bc : string * string =>
                            bc.1 = PyStr.lower brand /\ bc.2 = PyStr.lower category)
                         (elements seen_combinations)) in
        if (count <? 3)%nat then
          select_loop h rest top_k (candidates ++ [product])
                      (seen_combinations ∪ {[ diversity_key ]})
        else select_loop h rest top_k candidates seen_combinations
  end.

Definition select_candidates (h : heap) (scored_products : list addr)
    (top_k : Z) : list addr :=
  select_loop h scored_products top_k [] ∅.

End ProductScorer.

(** ** Re-ranking gateway client ([llm_client.py]) *)

(** Values produced by [json.loads] / [response.json()].  Integers and
    finite floats are both [JNum]; an object is the list of its items
    (keys are unique, as in a Python [dict]).  The non-standard literals
    [NaN], [Infinity] and [-Infinity], which [json.loads] also reads, are
    not values of this type: every number here is finite. *)
#[local] Unset Elimination Schemes.
Inductive json :=
| JNull
| JBool (b : bool)
| JNum (q : Q)
| JStr (s : string)
| JArr (l : list json)
| JObj (items : list (string * json)).
#[local] Set Elimination Schemes.

Module Json.

(** [d.get(k)] / [k in d] on the items of a dictionary. *)
Fixpoint lookup (k : string) (items : list (string * json)) : option json :=
  match items with
  | [] => None
  | (k', v) :: rest => if String.eqb k k' then Some v else lookup k rest
  end.

(** Python truth value. *)
Definition truthy (v : json) : bool :=
  match v with
  | JNull => false
  | JBool b => b
  | JNum q => negb (Qeq_bool q 0)
  | JStr s => negb (String.eqb s "")
  | JArr l => match l with [] => false | _ => true end
  | JObj m => match m with [] => false | _ => true end
  end.

(** [v[k]] and [v.get(k, ...)] with a string key need a dictionary; on
    any other value they raise. *)
Definition as_dict (v : json) : option (list (string * json)) :=
  match v with JObj m => Some m | _ => None end.

(** [isinstance(v, list)] *)
Definition as_list (v : json) : option (list json) :=
  match v with JArr l => Some l | _ => None end.

(** The least magnitude [float(v)] cannot convert: halfway between the
    largest finite double, [2^1024 - 2^971], and [2^1024].  Every finite
    float lies below it, so a number at or beyond it is an [int], and
    [float] raises [OverflowError] on it. *)
Definition float_limit : Z := 2 ^ 1024 - 2 ^ 970.

Definition float_overflow (q : Q) : bool :=
  Qle_bool (inject_Z float_limit) q || Qle_bool q (inject_Z (- float_limit)).

(** [isinstance(v, (int, float))] followed by [float(v)]; [bool] is a
    subclass of [int].  [None] is the failed type test or the
    [OverflowError] of the conversion.  The conversion of an [int] rounds
    to the nearest double; the result is read only through the range test
    and the clamp, which the rounding of an integer cannot change, and is
    kept exact here. *)
Definition as_number (v : json) : option Q :=
  match v with
  | JNum q => if float_overflow q then None else Some q
  | JBool b => Some (if b then 1%Q else 0%Q)
  | _ => None
  end.

Arguments float_overflow : simpl never.

Definition as_str (v : json) : option string :=
  match v with JStr s => Some s | _ => None end.

(** [v[0]]: first element of a list, first character of a string; every
    other value raises. *)
Definition subscript0 (v : json) : option json :=
  match v with
  | JArr (x :: _) => Some x
  | JStr (String c _) => Some (JStr (String c EmptyString))
  | _ => None
  end.

End Json.

Module LLMResponse.
Record t := {
  curatedProductIds : list string;
  reasoning : list string;
  confidence : Q;
  platinumSupplierProducts : list string;
  bundledPacks : list string;
  localFavorites : list string;
  businessInsights : list string;
  nextSteps : list string
}.
End LLMResponse.

(** What [await self.client.post(...)] does: it raises (network failure,
    timeout), or returns a response with a status code whose [.json()]
    is [body] ([None] when the body does not decode). *)
Inductive post_outcome :=
| PostRaises
| PostReturns (status_code : Z) (body : option json).

(** The module-level settings read from the environment. *)
Record Config := {
  DEFAULT_MAX_PRODUCTS : Z;
  TOP_K_PRESELECT : Z;
  USE_LLM : bool
}.

(** What awaiting [llm_client.finalize_candidates(...)] yields inside the
    handler's inner [try]. *)
Inductive gateway_result :=
| GatewayRaises
| GatewayReturns (r : option LLMResponse.t).

Module LLMClient.
Section Client.

(** [json.loads] on the message content: [None] is [JSONDecodeError]. *)
Variable json_loads : string -> option json.

(** Validation of one element of a [List[str]] field by the model class:
    [None] is a validation error. *)
Variable pydantic_str : json -> option string.

Definition validate_str_list (v : json) : option (list string) :=
  l ← Json.as_list v; mapM pydantic_str l.

Definition _call_llm_api (o : post_outcome) : option json :=
  match o with
  | PostRaises => None
  | PostReturns status_code body =>
      if (status_code =? 200)%Z then body else None
  end.

(** [max(0.0, min(1.0, confidence))] under the range test. *)
Definition clamp_confidence (confidence : Q) : Q :=
  if Qltb confidence 0.0 || Qltb 1.0 confidence
  then Qmax 0.0 (Qmin 1.0 confidence)
  else confidence.

(** The first part of [_parse_llm_response]: the content string of the
    first choice.  Every [return None], and every exception caught by the
    enclosing [try], is [None]. *)
Definition message_content (response : json) : option string :=
  response_d ← Json.as_dict response;
  choices ← Json.lookup "choices" response_d;
  if negb (Json.truthy choices) then None else
  first ← Json.subscript0 choices;
  first_d ← Json.as_dict first;
  message_d ← Json.as_dict (default (JObj []) (Json.lookup "message" first_d));
  let content := default (JStr "") (Json.lookup "content" message_d) in
  if negb (Json.truthy content) then None else
  Json.as_str content.

(** The second part: validation of the decoded [data] and construction of
    the [LLMResponse]. *)
Definition build_response (data : json) (max_products : Z)
    : option LLMResponse.t :=
  data_d ← Json.as_dict data;
  curated ← Json.lookup "curatedProductIds" data_d;
  reasoning ← Json.lookup "reasoning" data_d;
  confidence ← Json.lookup "confidence" data_d;
  curated_l ← Json.as_list curated;
  reasoning_l ← Json.as_list reasoning;
  confidence_q ← Json.as_number confidence;
  let confidence := clamp_confidence confidence_q in
  let curated_ids := py_slice_to curated_l max_products in
  let optional k := default (JArr []) (Json.lookup k data_d) in
  curatedProductIds ← validate_str_list (JArr curated_ids);
  reasoning ← validate_str_list (JArr reasoning_l);
  platinumSupplierProducts ← validate_str_list (optional "platinumSupplierProducts");
  bundledPacks ← validate_str_list (optional "bundledPacks");
  localFavorites ← validate_str_list (optional "localFavorites");
  businessInsights ← validate_str_list (optional "businessInsights");
  nextSteps ← validate_str_list (optional "nextSteps");
  Some {| LLMResponse.curatedProductIds := curatedProductIds;
          LLMResponse.reasoning := reasoning;
          LLMResponse.confidence := confidence;
          LLMResponse.platinumSupplierProducts := platinumSupplierProducts;
          LLMResponse.bundledPacks := bundledPacks;
          LLMResponse.localFavorites := localFavorites;
          LLMResponse.businessInsights := businessInsights;
          LLMResponse.nextSteps := nextSteps |}.

Definition _parse_llm_response (response : json) (max_products : Z)
    : option LLMResponse.t :=
  content ← message_content response;
  data ← json_loads content;
  build_response data max_products.

(** [finalize_candidates]: the prompt is built from the profile and the
    compact candidates and posted; [o] is what the post does. *)
Definition finalize_candidates (o : post_outcome) (max_products : Z)
    : option LLMResponse.t :=
  match _call_llm_api o with
  | Some response =>
      if Json.truthy response then _parse_llm_response response max_products
      else None
  | None => None
  end.

(** The client object as the handler sees it, for a request whose post
    does [o]: [finalize_candidates] catches every exception itself. *)
Definition client (o : post_outcome) : Z -> gateway_result :=
  fun max_products => GatewayReturns (finalize_candidates o max_products).

Definition required_fields : list string :=
  ["curatedProductIds"; "reasoning"; "confidence"].

Definition optional_fields : list string :=
  ["platinumSupplierProducts"; "bundledPacks"; "localFavorites";
   "businessInsights"; "nextSteps"].

(** The gateway outputs that are not accepted for a request of
    [max_products]: transport failures, a status other than 200, a body or
    a message content that is not JSON, a missing required field, a field
    that fails the type test the code applies to it (for [confidence]:
    [isinstance(v, (int, float))], then [float(v)]), a list element the
    response model rejects (for [curatedProductIds]: among the elements
    the cut keeps). *)
Inductive invalid_output (max_products : Z) : post_outcome -> Prop :=
| transport_raises :
    invalid_output max_products PostRaises
| status_not_200 status_code body :
    status_code ≠ 200 ->
    invalid_output max_products (PostReturns status_code body)
| body_not_json :
    invalid_output max_products (PostReturns 200 None)
| no_content response :
    message_content response = None ->
    invalid_output max_products (PostReturns 200 (Some response))
| content_not_json response content :
    message_content response = Some content ->
    json_loads content = None ->
    invalid_output max_products (PostReturns 200 (Some response))
| content_not_object response content data :
    message_content response = Some content ->
    json_loads content = Some data ->
    Json.as_dict data = None ->
    invalid_output max_products (PostReturns 200 (Some response))
| missing_field response content items field :
    message_content response = Some content ->
    json_loads content = Some (JObj items) ->
    field ∈ required_fields ->
    Json.lookup field items = None ->
    invalid_output max_products (PostReturns 200 (Some response))
| curated_not_list response content items v :
    message_content response = Some content ->
    json_loads content = Some (JObj items) ->
    Json.lookup "curatedProductIds" items = Some v ->
    Json.as_list v = None ->
    invalid_output max_products (PostReturns 200 (Some response))
| reasoning_not_list response content items v :
    message_content response = Some content ->
    json_loads content = Some (JObj items) ->
    Json.lookup "reasoning" items = Some v ->
    Json.as_list v = None ->
    invalid_output max_products (PostReturns 200 (Some response))
| confidence_not_number response content items v :
    message_content response = Some content ->
    json_loads content = Some (JObj items) ->
    Json.lookup "confidence" items = Some v ->
    Json.as_number v = None ->
    invalid_output max_products (PostReturns 200 (Some response))
| optional_not_list response content items field v :
    message_content response = Some content ->
    json_loads content = Some (JObj items) ->
    field ∈ optional_fields ->
    Json.lookup field items = Some v ->
    Json.as_list v = None ->
    invalid_output max_products (PostReturns 200 (Some response))
| element_not_string response content items field l x :
    message_content response = Some content ->
    json_loads content = Some (JObj items) ->
    field ∈ "reasoning" :: optional_fields ->
    Json.lookup field items = Some (JArr l) ->
    x ∈ l ->
    pydantic_str x = None ->
    invalid_output max_products (PostReturns 200 (Some response))
| curated_element_not_string response content items l x :
    message_content response = Some content ->
    json_loads content = Some (JObj items) ->
    Json.lookup "curatedProductIds" items = Some (JArr l) ->
    x ∈ py_slice_to l max_products ->
    pydantic_str x = None ->
    invalid_output max_products (PostReturns 200 (Some response)).

(** A field of the decoded object holds the list of strings [l]. *)
Definition str_list_field (items : list (string * json)) (field : string)
    (l : list string) : Prop :=
  Json.lookup field items = Some (JArr (JStr <$> l)).

(** An optional field holds [l], or is absent and [l] is empty. *)
Definition opt_str_list_field (items : list (string * json)) (field : string)
    (l : list string) : Prop :=
  str_list_field items field l ∨ (Json.lookup field items = None ∧ l = []).

End Client.
End LLMClient.

(** ** Curation orchestrator ([main.py]) *)

Module CurateResponse.
Record t := {
  curatedProductIds : list string;
  curatedProducts : list Product;
  reasoning : list string;
  confidence : Q;
  platinumSupplierProducts : list string;
  platinumProducts : list Product;
  bundledPacks : list string;
  bundledProducts : list Product;
  localFavorites : list string;
  localFavoriteProducts : list Product;
  businessInsights : list string;
  nextSteps : list string;
  generatedAt : Z
}.
End CurateResponse.

Record CurateRequest := {
  profile : Profile;
  maxProducts : option Z
}.

(** Outcome of the handler: the two [HTTPException]s or the response. *)
Inductive http_result :=
| Http503
| Http500
| Http200 (r : CurateResponse.t).

Module Main.
Section Handler.

(** [f"{ratio:.1%}"]: percentage rendering of a float. *)
Variable format_percent : Q -> string.

(** [p.sku or p.id] *)
Definition sku_or_id (p : Product) : string := PyStr.or_else (sku p) (id p).

Definition _get_location_from_profile (profile : Profile) : Location :=
  match location profile with
  | Some l => l
  | None =>
      {| loc_city := flat_city profile; loc_state := flat_state profile;
         loc_address := flat_address profile;
         loc_country := flat_country profile;
         loc_postcode := flat_postcode profile |}
  end.

Definition venue_is_dining (venue_type : string) : bool :=
  String.eqb venue_type "restaurant" || String.eqb venue_type "fine dining".

Definition _generate_rule_based_reasoning (profile : Profile)
    (products : list Product) : list string :=
  let reasoning := ["Curated for " +:+ venueType profile +:+ " venue type"] in
  let location := _get_location_from_profile profile in
  let reasoning :=
    if PyStr.truthy (loc_city location) then
      reasoning ++ ["Prioritized products available in "
                    +:+ ProductScorer.get (loc_city location)]
    else reasoning in
  let venue_type := PyStr.lower (venueType profile) in
  let reasoning :=
    if venue_is_dining venue_type then
      reasoning ++ ["Emphasized wine and champagne selections for dining experience"]
    else if String.eqb venue_type "bar" then
      reasoning ++ ["Focused on spirits and beer for bar service"]
    else reasoning in
  let bundle_count := length (filter (fun p => is_bundle p = true) products) in
  let reasoning :=
    if (0 <? bundle_count)%nat then
      reasoning ++ ["Included " +:+ pretty bundle_count
                    +:+ " curated bundles for variety"]
    else reasoning in
  let platinum_count :=
    length (filter (fun p => supplier_tier p = Some "platinum") products) in
  if (0 <? platinum_count)%nat then
    reasoning ++ ["Featured " +:+ pretty platinum_count
                  +:+ " platinum supplier products"]
  else reasoning.

(** The disjunction tested by [_get_local_favorite_products]. *)
Definition local_match (city_lower : string) (product : Product) : bool :=
  (String.eqb city_lower "sydney" && ProductScorer.sold (sold_at_sydney product))
  || (String.eqb city_lower "melbourne" && ProductScorer.sold (sold_at_melbourne product))
  || (String.eqb city_lower "brisbane" && ProductScorer.sold (sold_at_brisbane product))
  || (String.eqb city_lower "adelaide" && ProductScorer.sold (sold_at_adelaide product))
  || (String.eqb city_lower "cairns" && ProductScorer.sold (sold_at_cairns product)).

Definition _get_local_favorite_products (h : heap) (products : list addr)
    (profile : Profile) : list addr :=
  let location := _get_location_from_profile profile in
  filter (fun a =>
            PyStr.truthy (loc_city location)
            && local_match (PyStr.lower (ProductScorer.get (loc_city location))) (h a)
            = true)
         products.

(** [_get_local_favorites]: the same selection, returning identifiers. *)
Definition _get_local_favorites (h : heap) (products : list addr)
    (profile : Profile) : list string :=
  let location := _get_location_from_profile profile in
  omap (fun a =>
          if PyStr.truthy (loc_city location)
             && local_match (PyStr.lower (ProductScorer.get (loc_city location))) (h a)
          then Some (sku_or_id (h a)) else None)
       products.

(** [{p.sku or p.id: p for p in candidates}]: a later candidate with the
    same key replaces an earlier one. *)
Definition sku_to_product (h : heap) (candidates : list addr) : gmap string addr :=
  foldl (fun m a => <[ sku_or_id (h a) := a ]> m) ∅ candidates.

Definition _map_skus_to_products (h : heap) (skus : list string)
    (candidates : list addr) : list addr :=
  omap (fun sku => sku_to_product h candidates !! sku) skus.

(** [categories[cat] = categories.get(cat, 0) + 1] on a dictionary kept
    in insertion order. *)
Fixpoint bump (cat : string) (categories : list (string * nat))
    : list (string * nat) :=
  match categories with
  | [] => [(cat, 1%nat)]
  | (c, n) :: rest =>
      if String.eqb cat c then (c, S n) :: rest else (c, n) :: bump cat rest
  end.

(** [max(items, key=lambda x: x[1])]: the first item of largest count. *)
Definition top_item (items : list (string * nat)) : string * nat :=
  match items with
  | [] => ("Unknown", 0%nat)
  | x :: rest => foldl (fun best y => if (best.2 <? y.2)%nat then y else best) x rest
  end.

Definition _generate_business_insights (profile : Profile)
    (products : list Product) : list string :=
  let categories :=
    foldl (fun d p => bump (PyStr.or_else (category_level_1 p) "Unknown") d)
          [] products in
  let top_category := top_item categories in
  let insights :=
    ["Top category: " +:+ top_category.1 +:+ " (" +:+ pretty top_category.2
     +:+ " products)"] in
  let suppliers : gset string :=
    list_to_set (omap (fun p => if PyStr.truthy (supplier p) then supplier p else None)
                      products) in
  let insights :=
    insights ++ ["Products from " +:+ pretty (size suppliers)
                 +:+ " different suppliers"] in
  let bundle_ratio :=
    match products with
    | [] => 0%Q
    | _ => (Z.of_nat (length (filter (fun p => is_bundle p = true) products))
            # Pos.of_nat (length products))%Q
    end in
  if Qltb 0.1 bundle_ratio then
    insights ++ ["High bundle ratio (" +:+ format_percent bundle_ratio
                 +:+ ") - good for variety"]
  else insights.

Definition _generate_next_steps (profile : Profile) : list string :=
  let steps :=
    ["Review curated product list and select initial order";
     "Contact suppliers for pricing and availability"] in
  let steps :=
    if venue_is_dining (PyStr.lower (venueType profile)) then
      steps ++ ["Consider wine pairing recommendations for your menu";
                "Plan staff training on product knowledge"]
    else steps in
  let steps :=
    if bool_decide (tier profile = Some "bronze") then
      steps ++ ["Explore upgrade opportunities to access premium products"]
    else steps in
  steps ++ ["Set up regular reordering schedule";
            "Monitor customer preferences and adjust selections"].

(** [request.maxProducts or DEFAULT_MAX_PRODUCTS] *)
Definition effective_max (cfg : Config) (request : CurateRequest) : Z :=
  match maxProducts request with
  | Some n => if (n =? 0)%Z then DEFAULT_MAX_PRODUCTS cfg else n
  | None => DEFAULT_MAX_PRODUCTS cfg
  end.

(** The dictionary [response_data] as first built (the rule-based
    result).  The product lists carry the records as they stand in the
    store [h] after scoring. *)
Definition base_response (h : heap) (candidates : list addr)
    (request : CurateRequest) (max_products : Z) (now : Z)
    : CurateResponse.t :=
  let curated_products := py_slice_to candidates max_products in
  let platinum_products :=
    py_slice_to (filter (fun a => supplier_tier (h a) = Some "platinum") candidates) 10 in
  let bundled_products :=
    py_slice_to (filter (fun a => is_bundle (h a) = true) candidates) 10 in
  let local_favorite_products :=
    py_slice_to (_get_local_favorite_products h candidates (profile request)) 10 in
  {| CurateResponse.curatedProductIds := (fun a => sku_or_id (h a)) <$> curated_products;
     CurateResponse.curatedProducts := h <$> curated_products;
     CurateResponse.reasoning :=
       _generate_rule_based_reasoning (profile request) (h <$> curated_products);
     CurateResponse.confidence := 0.8;
     CurateResponse.platinumSupplierProducts :=
       (fun a => sku_or_id (h a)) <$> platinum_products;
     CurateResponse.platinumProducts := h <$> platinum_products;
     CurateResponse.bundledPacks := (fun a => sku_or_id (h a)) <$> bundled_products;
     CurateResponse.bundledProducts := h <$> bundled_products;
     CurateResponse.localFavorites :=
       (fun a => sku_or_id (h a)) <$> local_favorite_products;
     CurateResponse.localFavoriteProducts := h <$> local_favorite_products;
     CurateResponse.businessInsights :=
       _generate_business_insights (profile request) (h <$> candidates);
     CurateResponse.nextSteps := _generate_next_steps (profile request);
     CurateResponse.generatedAt := now |}.

(** [response_data.update({...})] with the gateway's answer. *)
Definition merge_llm (h : heap) (candidates : list addr) (max_products : Z)
    (response_data : CurateResponse.t) (llm_response : LLMResponse.t)
    : CurateResponse.t :=
  let llm_curated_products :=
    _map_skus_to_products h (LLMResponse.curatedProductIds llm_response) candidates in
  let llm_platinum_products :=
    _map_skus_to_products h (LLMResponse.platinumSupplierProducts llm_response) candidates in
  let llm_bundled_products :=
    _map_skus_to_products h (LLMResponse.bundledPacks llm_response) candidates in
  let llm_local_products :=
    _map_skus_to_products h (LLMResponse.localFavorites llm_response) candidates in
  {| CurateResponse.curatedProductIds :=
       py_slice_to (LLMResponse.curatedProductIds llm_response) max_products;
     CurateResponse.curatedProducts :=
       h <$> py_slice_to llm_curated_products max_products;
     CurateResponse.reasoning := LLMResponse.reasoning llm_response;
     CurateResponse.confidence := LLMResponse.confidence llm_response;
     CurateResponse.platinumSupplierProducts :=
       LLMResponse.platinumSupplierProducts llm_response;
     CurateResponse.platinumProducts := h <$> llm_platinum_products;
     CurateResponse.bundledPacks := LLMResponse.bundledPacks llm_response;
     CurateResponse.bundledProducts := h <$> llm_bundled_products;
     CurateResponse.localFavorites := LLMResponse.localFavorites llm_response;
     CurateResponse.localFavoriteProducts := h <$> llm_local_products;
     CurateResponse.businessInsights := LLMResponse.businessInsights llm_response;
     CurateResponse.nextSteps := LLMResponse.nextSteps llm_response;
     CurateResponse.generatedAt := CurateResponse.generatedAt response_data |}.

(** Construction of the [CurateResponse] model from [response_data]: the only constraint the lists of
    the dictionary can violate is the range of [confidence]; a
    validation error is caught by the outer [except] and becomes the
    500 error. *)
Definition validate_response (response_data : CurateResponse.t) : http_result :=
  if Qle_bool 0.0 (CurateResponse.confidence response_data)
     && Qle_bool (CurateResponse.confidence response_data) 1.0
  then Http200 response_data else Http500.

(** The block guarded by [if USE_LLM and llm_client:].  [llm_client] is
    the gateway client when one was created at start-up: given the
    effective [max_products] it tells what the awaited call yields for
    this request. *)
Definition apply_llm (cfg : Config) (llm_client : option (Z -> gateway_result))
    (h : heap) (candidates : list addr) (max_products : Z)
    (response_data : CurateResponse.t) : CurateResponse.t :=
  if USE_LLM cfg then
    match llm_client with
    | Some client =>
        match client max_products with
        | GatewayReturns (Some llm_response) =>
            merge_llm h candidates max_products response_data llm_response
        | GatewayReturns None => response_data
        | GatewayRaises => response_data
        end
    | None => response_data
    end
  else response_data.

(** The [/curate] handler; [products] is the loaded catalog. *)
Definition curate_products (cfg : Config) (products : list addr)
    (llm_client : option (Z -> gateway_result))
    (request : CurateRequest) (now : Z) (h : heap) : heap * http_result :=
  match products with
  | [] => (h, Http503)
  | _ =>
      let max_products := effective_max cfg request in
      let '(h, scored_products) :=
        ProductScorer.score_products h products (profile request) in
      let candidates :=
        ProductScorer.select_candidates h scored_products (TOP_K_PRESELECT cfg) in
      let response_data := base_response h candidates request max_products now in
      let response_data :=
        apply_llm cfg llm_client h candidates max_products response_data in
      (h, validate_response response_data)
  end.

(** The store and the candidate list of a request, as the handler
    computes them. *)
Definition request_heap (h : heap) (products : list addr)
    (request : CurateRequest) : heap :=
  (ProductScorer.score_products h products (profile request)).1.

Definition request_candidates (cfg : Config) (h : heap) (products : list addr)
    (request : CurateRequest) : list addr :=
  ProductScorer.select_candidates (request_heap h products request)
    (ProductScorer.score_products h products (profile request)).2
    (TOP_K_PRESELECT cfg).

End Handler.
End Main.

(** ** Catalog loader ([loader.py]) *)

Inductive load_error :=
| FileNotFoundError
| ValueError.

(** The dictionary returned by [get_products_summary]; the two rankings
    are absent from the dictionary returned for an empty catalog. *)
Record Summary := {
  total : nat;
  visible : nat;
  bundles : nat;
  top_categories : option (list (string * nat));
  top_suppliers : option (list (string * nat))
}.

Module Loader.
Section Load.

(** Construction of a [Product] from the keyword arguments of one record:
    [None] is a validation error. *)
Variable validate_product : list (string * json) -> option Product.

Definition bundle_keywords : list string :=
  ["pack"; "bundle"; "combo"; "set"; "collection";
   "starter"; "sampler"; "mixed"; "variety"].

(** [d[k] = v] on the items of a dictionary: an existing key keeps its
    place, a new key goes last. *)
Fixpoint dict_set (k : string) (v : json) (items : list (string * json))
    : list (string * json) :=
  match items with
  | [] => [(k, v)]
  | (k', v') :: rest =>
      if String.eqb k k' then (k', v) :: rest else (k', v') :: dict_set k v rest
  end.

(** [product_data.get(k, '').lower()]: raises ([None]) when the value is
    not a string. *)
Definition get_lower (k : string) (product_data : list (string * json))
    : option string :=
  match Json.lookup k product_data with
  | None => Some (PyStr.lower "")
  | Some (JStr s) => Some (PyStr.lower s)
  | Some _ => None
  end.

(** [any(keyword in text for keyword in bundle_keywords)] *)
Definition has_keyword (text : string) : bool :=
  existsb (fun keyword => PyStr.contains keyword text) bundle_keywords.

Definition _detect_bundle (product_data : list (string * json)) : option bool :=
  name ← get_lower "name" product_data;
  if has_keyword name then Some true else
  description ← get_lower "product_web_description" product_data;
  if has_keyword description then Some true else Some false.

(** The body of the loop of [load_products] for the record at index [i];
    [None] when an exception is caught and the record skipped.  A record
    that is not a dictionary always raises. *)
Definition load_one (i : nat) (record : json) : option Product :=
  product_data ← Json.as_dict record;
  let product_data :=
    match Json.lookup "id" product_data with
    | None => dict_set "id" (JStr (pretty i)) product_data
    | Some _ => product_data
    end in
  let product_data :=
    match Json.lookup "name" product_data with
    | None => dict_set "name" (JStr ("Product " +:+ pretty i)) product_data
    | Some _ => product_data
    end in
  is_bundle ← _detect_bundle product_data;
  validate_product (dict_set "is_bundle" (JBool is_bundle) product_data).

(** The loop over [enumerate(products_data)], from index [i]. *)
Fixpoint load_from (i : nat) (products_data : list json) : list Product :=
  match products_data with
  | [] => []
  | record :: rest =>
      match load_one i record with
      | Some product => product :: load_from (S i) rest
      | None => load_from (S i) rest
      end
  end.

(** [load_products]: [file] is [None] when the path does not exist,
    [Some None] when reading or decoding it fails, and the decoded value
    otherwise. *)
Definition load_products (file : option (option json))
    : load_error + list Product :=
  match file with
  | None => inl FileNotFoundError
  | Some None => inl ValueError
  | Some (Some data) =>
      match data with
      | JArr products_data => inr (load_from 0 products_data)
      | JObj items =>
          match Json.lookup "products" items with
          | Some (JArr products_data) => inr (load_from 0 products_data)
          | Some _ => inl ValueError
          | None => inl ValueError
          end
      | _ => inl ValueError
      end
  end.

End Load.

(** The counting loops of [get_products_summary]: products with a
    non-empty value of the attribute, counted per value, in order of first
    occurrence. *)
Definition count_by (attribute : Product -> option string)
    (products : list Product) : list (string * nat) :=
  foldl (fun counts p =>
           if PyStr.truthy (attribute p)
           then Main.bump (ProductScorer.get (attribute p)) counts
           else counts)
        [] products.

(** [counts.get(k, 0)] *)
Fixpoint count_of (k : string) (counts : list (string * nat)) : nat :=
  match counts with
  | [] => 0
  | (c, n) :: rest => if String.eqb k c then n else count_of k rest
  end.

(** The number of products whose attribute is the non-empty string [k]. *)
Definition filed (attribute : Product -> option string) (k : string)
    (products : list Product) : nat :=
  length (filter (fun p => PyStr.truthy (attribute p) = true
                           /\ ProductScorer.get (attribute p) = k) products).

(** [dict(sorted(counts.items(), key=lambda x: x[1], reverse=True)[:10])] *)
Definition top_ten (counts : list (string * nat)) : list (string * nat) :=
  take 10 (ProductScorer.sorted_reverse Nat.ltb snd counts).

Definition get_products_summary (products : list Product) : Summary :=
  match products with
  | [] => {| total := 0; visible := 0; bundles := 0;
             top_categories := None; top_suppliers := None |}
  | _ =>
      {| total := length products;
         visible :=
           length (filter (fun p => ProductScorer.is_visible p = true) products);
         bundles := length (filter (fun p => is_bundle p = true) products);
         top_categories := Some (top_ten (count_by category_level_1 products));
         top_suppliers := Some (top_ten (count_by supplier products)) |}
  end.

End Loader.

(** ** Concrete catalogues for the examples *)

Definition example_product (i : string) (s : option string)
    (sup : option string) (t : option string) : Product :=
  {| id := i; sku := s; name := "Example"; product_web_description := None;
     supplier := sup; brand := Some "Acme"; country := None; region := None;
     visibility := Some "4"; category_level_1 := Some "Spirits";
     category_level_2 := None; category_level_3 := None;
     category_level_4 := None; sold_at_cairns := None;
     sold_at_brisbane := None; sold_at_adelaide := None;
     sold_at_melbourne := None; sold_at_sydney := None; tags := None;
     origin := None; supplier_tier := t; is_bundle := false;
     locality_score := 0; category_fitness := 0; supplier_boost := 0;
     composite_score := 0 |}.

Definition bar_profile : Profile :=
  {| tier := None; location := None; venueType := "bar";
     cuisineStyle := None; budgetBand := None; flat_city := None;
     flat_state := None; flat_country := None; flat_address := None;
     flat_postcode := None |}.

(** Four visible products of brand "Acme" and category "Spirits"; the
    supplier tiers make their composite scores strictly descending. *)
Definition acme_heap : heap := fun a =>
  match a with
  | 0%nat => example_product "1" (Some "S1") (Some "Distillers") (Some "platinum")
  | 1%nat => example_product "2" (Some "S2") (Some "Distillers") (Some "gold")
  | 2%nat => example_product "3" (Some "S3") (Some "Distillers") (Some "silver")
  | _ => example_product "4" (Some "S4") (Some "Distillers") (Some "bronze")
  end.

Definition acme_catalog : list addr := [0; 1; 2; 3]%nat.

(** Two visible products that differ in supplier name only. *)
Definition supplier_heap : heap := fun a =>
  match a with
  | 0%nat => example_product "1" (Some "A1") (Some "Alpha") (Some "gold")
  | _ => example_product "2" (Some "B1") (Some "Beta") (Some "gold")
  end.

Definition supplier_catalog : list addr := [0; 1]%nat.

Definition example_config (llm : bool) : Config :=
  {| DEFAULT_MAX_PRODUCTS := 100; TOP_K_PRESELECT := 250; USE_LLM := llm |}.

Definition example_request : CurateRequest :=
  {| profile := bar_profile; maxProducts := Some 10 |}.

Definition example_format_percent : Q -> string := fun _ => "n/a".

(** The conditions under which the handler gets no gateway result. *)
Inductive gateway_unavailable (json_loads : string -> option json)
    (pydantic_str : json -> option string) (cfg : Config)
    (llm_client : option (Z -> gateway_result)) (max_products : Z) : Prop :=
| gateway_disabled :
    USE_LLM cfg = false -> gateway_unavailable json_loads pydantic_str cfg llm_client max_products
| gateway_not_created :
    llm_client = None -> gateway_unavailable json_loads pydantic_str cfg llm_client max_products
| gateway_raises c :
    llm_client = Some c -> c max_products = GatewayRaises ->
    gateway_unavailable json_loads pydantic_str cfg llm_client max_products
| gateway_returns_none c :
    llm_client = Some c -> c max_products = GatewayReturns None ->
    gateway_unavailable json_loads pydantic_str cfg llm_client max_products
| gateway_invalid o :
    llm_client = Some (LLMClient.client json_loads pydantic_str o) ->
    LLMClient.invalid_output json_loads pydantic_str max_products o ->
    gateway_unavailable json_loads pydantic_str cfg llm_client max_products.

(** A gateway exchange: the HTTP body wraps a message whose content
    decodes to a payload naming one candidate ("S2") and one identifier
    that is not a candidate ("GHOST"), with confidence [q]. *)
Definition example_payload (q : Q) : json :=
  JObj [("curatedProductIds", JArr [JStr "S2"; JStr "GHOST"]);
        ("reasoning", JArr [JStr "picked by the model"]);
        ("confidence", JNum q);
        ("platinumSupplierProducts", JArr [JStr "GHOST"; JStr "S1"])].

Definition example_body : json :=
  JObj [("choices",
         JArr [JObj [("message", JObj [("content", JStr "payload")])]])].

Definition example_json_loads (q : Q) : string -> option json :=
  fun s => if String.eqb s "payload" then Some (example_payload q) else None.

Definition example_client (q : Q) : Z -> gateway_result :=
  LLMClient.client (example_json_loads q) Json.as_str
    (PostReturns 200 (Some example_body)).

(** The same exchange with the JSON boolean [true] as confidence. *)
Definition boolean_payload : json :=
  JObj [("curatedProductIds", JArr [JStr "S2"; JStr "GHOST"]);
        ("reasoning", JArr [JStr "picked by the model"]);
        ("confidence", JBool true);
        ("platinumSupplierProducts", JArr [JStr "GHOST"; JStr "S1"])].

Definition boolean_json_loads : string -> option json :=
  fun s => if String.eqb s "payload" then Some boolean_payload else None.

Definition boolean_client : Z -> gateway_result :=
  LLMClient.client boolean_json_loads Json.as_str
    (PostReturns 200 (Some example_body)).


(** The identifiers under which the candidates can be looked up. *)
Definition candidate_keys (h : heap) (candidates : list addr) : list string :=
  (fun a => Main.sku_or_id (h a)) <$> candidates.

(** [records] lists, in order, one record for each identifier of [ids]
    that is one of [keys], each record carrying the identifier it stands
    for. *)
Definition records_follow_ids (keys ids : list string)
    (records : list Product) : Prop :=
  Main.sku_or_id <$> records = filter (fun s => s ∈ keys) ids.

(** The identifier of a record: its SKU when present and non-empty, its
    id otherwise. *)
Definition identifier_of (p : Product) : string :=
  match sku p with
  | Some s => if String.eqb s "" then id p else s
  | None => id p
  end.

(** The four (identifier list, record list) pairs of a response. *)
Definition response_pairs (r : CurateResponse.t)
    : list (list string * list Product) :=
  [(CurateResponse.curatedProductIds r, CurateResponse.curatedProducts r);
   (CurateResponse.platinumSupplierProducts r, CurateResponse.platinumProducts r);
   (CurateResponse.bundledPacks r, CurateResponse.bundledProducts r);
   (CurateResponse.localFavorites r, CurateResponse.localFavoriteProducts r)].

Definition sydney_profile : Profile :=
  {| tier := Some "bronze";
     location := Some {| loc_city := Some "Sydney"; loc_state := Some "NSW";
                         loc_address := None; loc_country := Some "Australia";
                         loc_postcode := Some "2000" |};
     venueType := "restaurant"; cuisineStyle := Some "fine dining";
     budgetBand := None; flat_city := None; flat_state := None;
     flat_country := None; flat_address := None; flat_postcode := None |}.

(** The cities that have an availability flag on a product. *)
Definition five_cities : list string :=
  ["sydney"; "melbourne"; "brisbane"; "adelaide"; "cairns"].

(** [top] is a ranking of the values of an attribute: at most ten
    entries with distinct keys, in descending order of count, each with
    the exact number of products carrying that value, and no value left
    out has more products than a listed one. *)
Definition is_ranking (attribute : Product -> option string)
    (products : list Product) (top : list (string * nat)) : Prop :=
  (length top <= 10)%nat
  /\ NoDup top.*1
  /\ StronglySorted (fun x y : string * nat => (y.2 <= x.2)%nat) top
  /\ (forall k n, (k, n) ∈ top ->
        (0 < n)%nat /\ n = Loader.filed attribute k products)
  /\ (forall k x, k ∉ top.*1 -> x ∈ top ->
        (Loader.filed attribute k products <= x.2)%nat).

(** The category names used as keys of the venue tables. *)
Definition category_names : list string :=
  ["wine"; "champagne"; "sparkling"; "spirits"; "beer"; "default"].

(** The four computed fields of every object are the same in two stores. *)
Definition scores_untouched (h h' : heap) : Prop :=
  ∀ a, locality_score (h' a) = locality_score (h a)
       ∧ category_fitness (h' a) = category_fitness (h a)
       ∧ supplier_boost (h' a) = supplier_boost (h a)
       ∧ composite_score (h' a) = composite_score (h a).

(** Two records agree on every attribute the catalog loader sets. *)
Definition same_base (p q : Product) : Prop :=
  ProductScorer.with_scores p 0 0 0 0 = ProductScorer.with_scores q 0 0 0 0.

(** * Properties *)

Import ProductScorer.

(** ** The scoring pass on the store *)

Section ScoringPass.
Variable profile : Profile.

Lemma heap_set_same h a p : heap_set h a p a = p.
Proof. unfold heap_set. by rewrite Nat.eqb_refl. Qed.

Lemma heap_set_other h a b p : b ≠ a → heap_set h a p b = h b.
Proof.
  intros Hne. unfold heap_set.
  destruct (Nat.eqb_spec b a); [contradiction | reflexivity].
Qed.

Lemma score_in_place_same h a : score_in_place profile h a a = rescore profile (h a).
Proof. unfold score_in_place. rewrite !heap_set_same. reflexivity. Qed.

Lemma score_in_place_other h a b : b ≠ a → score_in_place profile h a b = h b.
Proof.
  intros Hne. unfold score_in_place. by rewrite !heap_set_other.
Qed.

Lemma composite_score_eq p :
  _calculate_composite_score p =
  composite_of (locality_score p) (category_fitness p) (supplier_boost p)
               (is_bundle p).
Proof. reflexivity. Qed.

Lemma locality_set_locality p v :
  _calculate_locality_score (set_locality_score p v) profile
  = _calculate_locality_score p profile.
Proof. reflexivity. Qed.
Lemma locality_set_category p v :
  _calculate_locality_score (set_category_fitness p v) profile
  = _calculate_locality_score p profile.
Proof. reflexivity. Qed.
Lemma locality_set_supplier p v :
  _calculate_locality_score (set_supplier_boost p v) profile
  = _calculate_locality_score p profile.
Proof. reflexivity. Qed.
Lemma locality_set_composite p v :
  _calculate_locality_score (set_composite_score p v) profile
  = _calculate_locality_score p profile.
Proof. reflexivity. Qed.

Lemma category_set_locality p v :
  _calculate_category_fitness (set_locality_score p v) profile
  = _calculate_category_fitness p profile.
Proof. reflexivity. Qed.
Lemma category_set_category p v :
  _calculate_category_fitness (set_category_fitness p v) profile
  = _calculate_category_fitness p profile.
Proof. reflexivity. Qed.
Lemma category_set_supplier p v :
  _calculate_category_fitness (set_supplier_boost p v) profile
  = _calculate_category_fitness p profile.
Proof. reflexivity. Qed.
Lemma category_set_composite p v :
  _calculate_category_fitness (set_composite_score p v) profile
  = _calculate_category_fitness p profile.
Proof. reflexivity. Qed.

Lemma supplier_set_locality p v :
  _calculate_supplier_boost (set_locality_score p v) = _calculate_supplier_boost p.
Proof. reflexivity. Qed.
Lemma supplier_set_category p v :
  _calculate_supplier_boost (set_category_fitness p v) = _calculate_supplier_boost p.
Proof. reflexivity. Qed.
Lemma supplier_set_supplier p v :
  _calculate_supplier_boost (set_supplier_boost p v) = _calculate_supplier_boost p.
Proof. reflexivity. Qed.
Lemma supplier_set_composite p v :
  _calculate_supplier_boost (set_composite_score p v) = _calculate_supplier_boost p.
Proof. reflexivity. Qed.

Lemma rescore_eq p :
  rescore profile p =
  with_scores p (_calculate_locality_score p profile)
    (_calculate_category_fitness p profile) (_calculate_supplier_boost p)
    (composite_of (_calculate_locality_score p profile)
       (_calculate_category_fitness p profile) (_calculate_supplier_boost p)
       (is_bundle p)).
Proof.
  unfold rescore, with_scores.
  rewrite composite_score_eq, supplier_set_category, supplier_set_locality,
    category_set_locality.
  reflexivity.
Qed.

Lemma with_scores_twice p l c s k l' c' s' k' :
  with_scores (with_scores p l c s k) l' c' s' k' = with_scores p l' c' s' k'.
Proof. reflexivity. Qed.

Lemma rescore_idem p : rescore profile (rescore profile p) = rescore profile p.
Proof.
  rewrite (rescore_eq (rescore profile p)). rewrite !(rescore_eq p).
  unfold with_scores at 2 3 4 6 7 8 10.
  rewrite !locality_set_composite, !locality_set_supplier,
    !locality_set_category, !locality_set_locality,
    !category_set_composite, !category_set_supplier,
    !category_set_category, !category_set_locality,
    !supplier_set_composite, !supplier_set_supplier,
    !supplier_set_category, !supplier_set_locality.
  apply with_scores_twice.
Qed.

Lemma foldl_score_not_in l : ∀ h b,
  b ∉ l → foldl (score_in_place profile) h l b = h b.
Proof.
  induction l as [|a l IH]; intros h b Hb; [reflexivity|].
  apply not_elem_of_cons in Hb as [Hne Hb]. simpl.
  rewrite IH by done. by apply score_in_place_other.
Qed.

Lemma foldl_score_in l : ∀ h b,
  b ∈ l → foldl (score_in_place profile) h l b = rescore profile (h b).
Proof.
  induction l as [|a l IH]; intros h b Hb; [by apply elem_of_nil in Hb|].
  simpl. destruct (decide (b ∈ l)) as [Hin|Hnin].
  - rewrite IH by done. destruct (decide (b = a)) as [->|Hne].
    + rewrite score_in_place_same. apply rescore_idem.
    + by rewrite score_in_place_other.
  - rewrite foldl_score_not_in by done.
    apply elem_of_cons in Hb as [->|Hb]; [|done].
    apply score_in_place_same.
Qed.

End ScoringPass.


(** ** [sorted] and [score_products] *)

Section Sorting.
Context {A K : Type} (ltb : K → K → bool) (key : A → K).

Lemma insert_desc_perm x l : insert_desc ltb key x l ≡ₚ x :: l.
Proof.
  induction l as [|y l IH]; simpl; [done|].
  destruct (ltb (key x) (key y)); [|done].
  rewrite IH. apply Permutation_swap.
Qed.

Lemma sorted_reverse_perm l : sorted_reverse ltb key l ≡ₚ l.
Proof.
  induction l as [|x l IH]; simpl; [done|].
  fold (sorted_reverse ltb key l). by rewrite insert_desc_perm, IH.
Qed.

(** Descending order needs the comparison to be asymmetric only. *)
Lemma insert_desc_sorted x l :
  (∀ k1 k2, ltb k1 k2 = true → ltb k2 k1 = false) →
  Sorted (λ a b, ltb (key a) (key b) = false) l →
  Sorted (λ a b, ltb (key a) (key b) = false) (insert_desc ltb key x l).
Proof.
  intros Hasym. induction 1 as [|y l Hs IH Hhd]; simpl.
  { repeat constructor. }
  destruct (ltb (key x) (key y)) eqn:Hxy.
  - constructor; [exact IH|].
    destruct Hhd as [|z l Hyz]; simpl.
    + constructor. by apply Hasym.
    + destruct (ltb (key x) (key z)); constructor; [done|by apply Hasym].
  - repeat constructor; done.
Qed.

Lemma sorted_reverse_sorted l :
  (∀ k1 k2, ltb k1 k2 = true → ltb k2 k1 = false) →
  Sorted (λ a b, ltb (key a) (key b) = false) (sorted_reverse ltb key l).
Proof.
  intros Hasym. induction l as [|x l IH]; simpl; [constructor|].
  by apply insert_desc_sorted.
Qed.

End Sorting.

Lemma key_ltb_asym k1 k2 : key_ltb k1 k2 = true → key_ltb k2 k1 = false.
Proof.
  destruct k1 as [[c1 w1] s1], k2 as [[c2 w2] s2]. unfold key_ltb, PyStr.ltb.
  rewrite <- (Qcompare_antisym c1 c2), <- (Qcompare_antisym w1 w2),
    (String.compare_antisym s1 s2).
  destruct (c1 ?= c2)%Q; simpl; try done.
  destruct (w1 ?= w2)%Q; simpl; try done.
  by destruct (String.compare s2 s1).
Qed.

Section ScoreProducts.
Variables (h : heap) (products : list addr) (profile : Profile).

Lemma is_visible_spec p : is_visible p = true ↔ visibility p = Some "4".
Proof.
  unfold is_visible. destruct (visibility p) as [v|]; [|done].
  rewrite String.eqb_eq. split; congruence.
Qed.

Lemma is_visible_rescore p : is_visible (rescore profile p) = is_visible p.
Proof. reflexivity. Qed.

Lemma score_products_scored :
  (score_products h products profile).2 ≡ₚ
  filter (λ a, is_visible (h a) = true) products.
Proof. apply sorted_reverse_perm. Qed.

Lemma score_products_heap_visible a :
  a ∈ products → is_visible (h a) = true →
  (score_products h products profile).1 a = rescore profile (h a).
Proof.
  intros Hin Hvis. simpl. apply foldl_score_in.
  by apply list_elem_of_filter.
Qed.

Lemma score_products_heap_other a :
  a ∉ products ∨ is_visible (h a) ≠ true →
  (score_products h products profile).1 a = h a.
Proof.
  intros Hout. simpl. apply foldl_score_not_in.
  rewrite list_elem_of_filter. tauto.
Qed.

Lemma score_products_base a :
  same_base ((score_products h products profile).1 a) (h a).
Proof.
  destruct (decide (a ∈ products ∧ is_visible (h a) = true)) as [[Hin Hv]|Hn].
  - rewrite score_products_heap_visible by done.
    rewrite rescore_eq. reflexivity.
  - rewrite score_products_heap_other; [reflexivity|].
    destruct (decide (a ∈ products)); tauto.
Qed.

(** The order of the output: no product is followed by one of strictly
    greater key, the key being (composite score, tier weight as looked up
    by the sort, supplier name), compared component by component. *)
Lemma score_products_sorted :
  Sorted (λ a b,
      key_ltb (sort_key ((score_products h products profile).1 a))
              (sort_key ((score_products h products profile).1 b)) = false)
    (score_products h products profile).2.
Proof.
  apply (sorted_reverse_sorted key_ltb
           (λ a, sort_key ((score_products h products profile).1 a))).
  apply key_ltb_asym.
Qed.

Lemma score_products_elem a :
  a ∈ (score_products h products profile).2 ↔
  a ∈ products ∧ is_visible (h a) = true.
Proof.
  rewrite score_products_scored, list_elem_of_filter. tauto.
Qed.

End ScoreProducts.

(** C7: for every product list and profile, the scored output is a
    permutation of exactly those input products whose visibility code is
    the string "4"; a product with any other code, or with none, does not
    appear in it, and scoring does not change the code. *)
Theorem score_products_only_visible h products profile :
  (ProductScorer.score_products h products profile).2
    ≡ₚ filter (λ a, visibility (h a) = Some "4") products
  ∧ (∀ a, visibility (h a) ≠ Some "4" →
          a ∉ (ProductScorer.score_products h products profile).2)
  ∧ (∀ a, a ∈ (ProductScorer.score_products h products profile).2 →
          visibility ((ProductScorer.score_products h products profile).1 a)
          = Some "4").
Proof.
  split; [|split].
  - rewrite score_products_scored.
    erewrite list_filter_iff; [reflexivity|].
    intros a. apply is_visible_spec.
  - intros a Hv Hin. apply score_products_elem in Hin as [_ Hin].
    by apply is_visible_spec in Hin.
  - intros a Hin. apply score_products_elem in Hin as [Hin Hv].
    rewrite score_products_heap_visible by done.
    apply is_visible_spec. by rewrite is_visible_rescore.
Qed.

(** C6: every product of the scored output carries a composite score
    equal to 0.3*locality + 0.4*category fitness + 0.2*supplier boost
    + 0.1*(0.1 if bundle else 0) capped at 1.0, computed from the
    sub-scores stored on the same product; the bundle term is at most
    0.01, so the composite exceeds the capped bundle-free sum by at most
    0.01. *)
Theorem composite_score_formula h products profile a :
  a ∈ (ProductScorer.score_products h products profile).2 →
  let p := (ProductScorer.score_products h products profile).1 a in
  let bundle_term := (0.1 * (if is_bundle p then 0.1 else 0.0))%Q in
  let rest := (0.3 * locality_score p + 0.4 * category_fitness p
               + 0.2 * supplier_boost p)%Q in
  (composite_score p == Qmin (rest + bundle_term) 1.0)%Q
  ∧ (0 <= bundle_term)%Q ∧ (bundle_term <= 0.01)%Q
  ∧ (composite_score p <= Qmin rest 1.0 + 0.01)%Q.
Proof.
  intros Hin p bundle_term rest.
  apply score_products_elem in Hin as [Hin Hv].
  assert (Hp : p = rescore profile (h a))
    by (by apply score_products_heap_visible).
  assert (Hc : composite_score p = Qmin (rest + bundle_term) 1.0).
  { subst bundle_term rest. rewrite Hp, rescore_eq. reflexivity. }
  assert (Hb : (0 <= bundle_term)%Q ∧ (bundle_term <= 0.01)%Q).
  { subst bundle_term. destruct (is_bundle p); split; vm_compute; discriminate. }
  destruct Hb as [Hb0 Hb1].
  split; [by rewrite Hc|]. split; [done|]. split; [done|].
  rewrite Hc.
  destruct (Q.min_spec (rest + bundle_term) 1.0) as [[? ->]|[? ->]],
           (Q.min_spec rest 1.0) as [[? ->]|[? ->]]; lra.
Qed.

Lemma composite_score_formula_witness :
  (0%nat ∈ (ProductScorer.score_products acme_heap acme_catalog bar_profile).2)
  ∧ (composite_score
       ((ProductScorer.score_products acme_heap acme_catalog bar_profile).1 0%nat)
     <= 1.0)%Q.
Proof.
  assert (H0 : 0%nat ∈ (ProductScorer.score_products acme_heap acme_catalog
                          bar_profile).2).
  { vm_compute. apply list_elem_of_here. }
  split; [exact H0|].
  destruct (composite_score_formula acme_heap acme_catalog bar_profile 0%nat H0)
    as (Heq & _ & _ & _).
  rewrite Heq. apply Q.le_min_r.
Defined.

(** ** The handler and the store *)

Section HandlerStore.
Variable format_percent : Q → string.
Variables (cfg : Config) (products : list addr)
  (llm_client : option (Z → gateway_result)) (request : CurateRequest)
  (now : Z) (h : heap).

Lemma curate_products_unfold :
  products ≠ [] →
  Main.curate_products format_percent cfg products llm_client request now h =
  (Main.request_heap h products request,
   Main.validate_response
     (Main.apply_llm cfg llm_client (Main.request_heap h products request)
        (Main.request_candidates cfg h products request)
        (Main.effective_max cfg request)
        (Main.base_response format_percent (Main.request_heap h products request)
           (Main.request_candidates cfg h products request) request
           (Main.effective_max cfg request) now))).
Proof. destruct products; [done|reflexivity]. Qed.

Lemma curate_products_heap a :
  (Main.curate_products format_percent cfg products llm_client request now h).1 a
  = (score_products h products (profile request)).1 a.
Proof.
  destruct (decide (products = [])) as [->|Hne]; [reflexivity|].
  by rewrite curate_products_unfold.
Qed.

End HandlerStore.

(** C9, as amended: a curation request overwrites, in place on the shared
    catalog objects, the four computed score fields of every catalog
    product whose visibility code is "4", with the values computed from
    that product and the request's profile; every other attribute of
    every object, and every object that is not a visible catalog product,
    is left as it was. *)
Theorem curate_overwrites_catalog_scores format_percent cfg products llm_client
    request now h a :
  same_base
    ((Main.curate_products format_percent cfg products llm_client request now h).1 a)
    (h a)
  ∧ (a ∈ products ∧ visibility (h a) = Some "4" →
     (Main.curate_products format_percent cfg products llm_client request now h).1 a
     = with_scores (h a)
         (_calculate_locality_score (h a) (profile request))
         (_calculate_category_fitness (h a) (profile request))
         (_calculate_supplier_boost (h a))
         (composite_of
            (_calculate_locality_score (h a) (profile request))
            (_calculate_category_fitness (h a) (profile request))
            (_calculate_supplier_boost (h a)) (is_bundle (h a))))
  ∧ (a ∉ products ∨ visibility (h a) ≠ Some "4" →
     (Main.curate_products format_percent cfg products llm_client request now h).1 a
     = h a).
Proof.
  rewrite curate_products_heap. split; [|split].
  - apply score_products_base.
  - intros [Hin Hv]. apply is_visible_spec in Hv.
    rewrite score_products_heap_visible by done. apply rescore_eq.
  - intros Hout. apply score_products_heap_other.
    rewrite is_visible_spec. exact Hout.
Qed.

(** C9 as stated fails: after one request on the four-product catalogue
    the score fields of the shared objects differ from what they were. *)
Lemma curate_mutates_catalog_scores :
  ¬ scores_untouched acme_heap
      (Main.curate_products example_format_percent (example_config false)
         acme_catalog None example_request 0 acme_heap).1.
Proof.
  intros Hs. destruct (Hs 0%nat) as (_ & _ & _ & Hc).
  vm_compute in Hc. discriminate Hc.
Qed.

(** ** Candidate selection *)

Section SelectCandidates.
Variable h : heap.

Lemma filter_eq_NoDup_length (y : string * string) (l : list (string * string)) :
  NoDup l →
  (length (filter (λ bc : string * string, bc.1 = y.1 ∧ bc.2 = y.2) l) ≤ 1)%nat.
Proof.
  induction 1 as [|x l Hx Hnd IH]; simpl; [lia|].
  rewrite filter_cons. case_decide as Hxy; [|done].
  assert (x = y) as -> by (destruct x, y; simpl in *; by destruct Hxy as [-> ->]).
  assert (filter (λ bc : string * string, bc.1 = y.1 ∧ bc.2 = y.2) l = []) as ->.
  { destruct (filter _ l) as [|z l'] eqn:Hf; [done|].
    assert (Hz : z ∈ filter (λ bc : string * string, bc.1 = y.1 ∧ bc.2 = y.2) l)
      by (rewrite Hf; apply list_elem_of_here).
    apply list_elem_of_filter in Hz as [[Hz1 Hz2] Hz].
    exfalso. apply Hx. destruct z, y; simpl in *; by subst. }
  simpl; lia.
Qed.

(** The count taken over a set never reaches 3, so the loop accepts every
    product until [top_k] candidates are held. *)
Lemma select_loop_prefix top_k scored : ∀ candidates seen,
  select_loop h scored top_k candidates seen
  = candidates ++ take (Z.to_nat top_k - length candidates) scored.
Proof.
  induction scored as [|product rest IH]; intros candidates seen; simpl.
  { by rewrite take_nil, app_nil_r. }
  destruct (Z.leb_spec top_k (Z.of_nat (length candidates))) as [Hle|Hlt].
  { replace (Z.to_nat top_k - length candidates)%nat with 0%nat by lia.
    by rewrite app_nil_r. }
  pose proof (filter_eq_NoDup_length
    (PyStr.lower (PyStr.or_else (brand (h product)) "unknown"),
     PyStr.lower (PyStr.or_else (category_level_1 (h product)) "unknown"))
    (elements seen) (NoDup_elements seen)) as Hcount.
  simpl in Hcount.
  destruct (Nat.ltb_spec
    (length (filter (λ bc : string * string,
       bc.1 = PyStr.lower (PyStr.or_else (brand (h product)) "unknown")
       ∧ bc.2 = PyStr.lower (PyStr.or_else (category_level_1 (h product)) "unknown"))
       (elements seen))) 3) as [_|Hge]; [|lia].
  rewrite IH, length_app. simpl.
  replace (Z.to_nat top_k - length candidates)%nat
    with (S (Z.to_nat top_k - (length candidates + 1)))%nat by lia.
  by rewrite <- app_assoc.
Qed.

Lemma select_candidates_prefix scored top_k :
  select_candidates h scored top_k = take (Z.to_nat top_k) scored.
Proof.
  unfold select_candidates. rewrite select_loop_prefix. simpl.
  by rewrite Nat.sub_0_r.
Qed.

End SelectCandidates.

(** C2, evaluated on its scenario: four visible products of brand "Acme"
    and category "Spirits" are ranked with strictly descending composite
    scores, and with [top_k = 10] the selector returns all four of them,
    the fourth included. *)
Theorem select_candidates_keeps_fourth :
  (score_products acme_heap acme_catalog bar_profile).2 = [0; 1; 2; 3]%nat
  ∧ Forall (λ a, brand (acme_heap a) = Some "Acme"
                 ∧ category_level_1 (acme_heap a) = Some "Spirits"
                 ∧ visibility (acme_heap a) = Some "4") acme_catalog
  ∧ StronglySorted (λ a b,
      (composite_score ((score_products acme_heap acme_catalog bar_profile).1 b)
       < composite_score ((score_products acme_heap acme_catalog bar_profile).1 a))%Q)
      [0; 1; 2; 3]%nat
  ∧ select_candidates (score_products acme_heap acme_catalog bar_profile).1
      (score_products acme_heap acme_catalog bar_profile).2 10
    = [0; 1; 2; 3]%nat.
Proof.
  split; [by vm_compute|]. split.
  { repeat constructor. }
  split.
  { repeat (constructor; [|repeat (constructor; [by vm_compute|])]).
    all: constructor. }
  by vm_compute.
Qed.

(** C5, evaluated on two visible products with equal composite score and
    equal supplier tier that differ in supplier name only: the product of
    supplier "Beta" is ranked before the product of supplier "Alpha", so
    the tertiary key orders supplier names descending. *)
Theorem score_products_supplier_descending :
  supplier (supplier_heap 0%nat) = Some "Alpha"
  ∧ supplier (supplier_heap 1%nat) = Some "Beta"
  ∧ (composite_score ((score_products supplier_heap supplier_catalog bar_profile).1 0%nat)
     == composite_score ((score_products supplier_heap supplier_catalog bar_profile).1 1%nat))%Q
  ∧ supplier_tier (supplier_heap 0%nat) = supplier_tier (supplier_heap 1%nat)
  ∧ (score_products supplier_heap supplier_catalog bar_profile).2 = [1; 0]%nat.
Proof. repeat split; by vm_compute. Qed.

(** ** The gateway client *)

Section Gateway.
Variable json_loads : string → option json.
Variable pydantic_str : json → option string.

#[local] Arguments LLMClient.validate_str_list : simpl never.

Lemma validate_str_list_not_list v :
  Json.as_list v = None → LLMClient.validate_str_list pydantic_str v = None.
Proof. intros Hv. unfold LLMClient.validate_str_list. by rewrite Hv. Qed.

Lemma validate_str_list_rejects l x :
  x ∈ l → pydantic_str x = None →
  LLMClient.validate_str_list pydantic_str (JArr l) = None.
Proof.
  intros Hx Hnone. unfold LLMClient.validate_str_list. simpl.
  apply mapM_None, Exists_exists. eauto.
Qed.

Lemma validate_str_list_strings l :
  (∀ s, pydantic_str (JStr s) = Some s) →
  LLMClient.validate_str_list pydantic_str (JArr (JStr <$> l)) = Some l.
Proof.
  intros Hstr. unfold LLMClient.validate_str_list. simpl.
  apply mapM_Some. induction l; constructor; auto.
Qed.

(** Walks through the binds of [build_response], one case split each. *)
Ltac walk_binds :=
  repeat (simpl; try reflexivity;
          match goal with
          | |- (?m ≫= _) = None => destruct m eqn:?
          end).

Ltac use_lookup :=
  repeat match goal with
  | H : Json.lookup ?k ?items = _, E : context [Json.lookup ?k ?items] |- _ =>
      rewrite H in E; simpl in E
  end.

Lemma build_response_invalid response content items max_products :
  LLMClient.message_content response = Some content →
  json_loads content = Some (JObj items) →
  LLMClient.invalid_output json_loads pydantic_str max_products
    (PostReturns 200 (Some response)) →
  (∀ data, json_loads content = Some data →
           LLMClient.build_response pydantic_str data max_products = None).
Proof.
  intros Hc Hl Hinv data Hdata. rewrite Hl in Hdata. injection Hdata as <-.
  inversion Hinv; simplify_eq; try discriminate;
    repeat match goal with
    | Hf : _ ∈ LLMClient.required_fields |- _ =>
        unfold LLMClient.required_fields in Hf
    | Hf : _ ∈ LLMClient.optional_fields |- _ =>
        unfold LLMClient.optional_fields in Hf
    | Hf : _ ∈ _ :: _ |- _ => apply elem_of_cons in Hf as [->|Hf]
    | Hf : _ ∈ [] |- _ => by apply elem_of_nil in Hf
    end;
    unfold LLMClient.build_response; walk_binds; use_lookup; simplify_eq/=;
    try congruence;
    match goal with
    | Hv : Json.as_list ?v = None,
      E : LLMClient.validate_str_list _ ?v = Some _ |- _ =>
        rewrite (validate_str_list_not_list v Hv) in E; discriminate E
    | Hx : ?x ∈ ?l, Hr : pydantic_str ?x = None,
      E : LLMClient.validate_str_list _ (JArr ?l) = Some _ |- _ =>
        rewrite (validate_str_list_rejects l x Hx Hr) in E; discriminate E
    end.
Qed.

Lemma invalid_output_none o max_products :
  LLMClient.invalid_output json_loads pydantic_str max_products o →
  LLMClient.finalize_candidates json_loads pydantic_str o max_products = None.
Proof.
  intros Hinv. unfold LLMClient.finalize_candidates.
  destruct o as [|status_code [response|]]; simpl; [done| |].
  2: { by destruct (status_code =? 200). }
  destruct (Z.eqb_spec status_code 200) as [->|Hne]; [|done].
  destruct (Json.truthy response); [|done].
  unfold LLMClient._parse_llm_response.
  destruct (LLMClient.message_content response) as [content|] eqn:Hc; [|done].
  simpl. destruct (json_loads content) as [data|] eqn:Hl; [|done]. simpl.
  destruct data as [| | | | |items];
    try (inversion Hinv; subst; simplify_eq; fail).
  all: try reflexivity.
  eapply build_response_invalid; eauto.
Qed.

Lemma py_slice_to_fmap {A B} (f : A → B) (l : list A) n :
  py_slice_to (f <$> l) n = f <$> py_slice_to l n.
Proof.
  unfold py_slice_to. rewrite length_fmap.
  destruct (0 <=? n); by rewrite fmap_take.
Qed.

Lemma validate_optional items field l :
  (∀ s, pydantic_str (JStr s) = Some s) →
  LLMClient.opt_str_list_field items field l →
  LLMClient.validate_str_list pydantic_str
    (default (JArr []) (Json.lookup field items)) = Some l.
Proof.
  intros Hstr [Hl|[Hl ->]]; rewrite Hl; simpl.
  - by apply validate_str_list_strings.
  - by apply (validate_str_list_strings []).
Qed.

Lemma clamp_confidence_below q :
  (q < 0)%Q → LLMClient.clamp_confidence q = 0.0%Q.
Proof.
  intros Hq. unfold LLMClient.clamp_confidence, Qltb.
  assert (H0 : (q ?= 0.0)%Q = Lt) by (apply (proj1 (Qlt_alt _ _)); lra).
  rewrite H0. simpl. unfold Qmin, Qmax, GenericMinMax.gmin, GenericMinMax.gmax.
  assert (H1 : (1.0 ?= q)%Q = Gt) by (apply (proj1 (Qgt_alt _ _)); lra).
  rewrite H1.
  assert (H2 : (0.0 ?= q)%Q = Gt) by (apply (proj1 (Qgt_alt _ _)); lra).
  by rewrite H2.
Qed.

Lemma clamp_confidence_above q :
  (1 < q)%Q → LLMClient.clamp_confidence q = 1.0%Q.
Proof.
  intros Hq. unfold LLMClient.clamp_confidence, Qltb.
  assert (H1 : (1.0 ?= q)%Q = Lt) by (apply (proj1 (Qlt_alt _ _)); lra).
  rewrite H1, orb_true_r.
  unfold Qmin, Qmax, GenericMinMax.gmin, GenericMinMax.gmax.
  by rewrite H1.
Qed.

Lemma clamp_confidence_inside q :
  (0 <= q)%Q → (q <= 1)%Q → LLMClient.clamp_confidence q = q.
Proof.
  intros H0 H1. unfold LLMClient.clamp_confidence, Qltb.
  destruct (Qcompare_spec q 0.0); try lra;
    destruct (Qcompare_spec 1.0 q); try lra; reflexivity.
Qed.

Lemma clamp_confidence_range q :
  (0 <= LLMClient.clamp_confidence q)%Q ∧ (LLMClient.clamp_confidence q <= 1)%Q.
Proof.
  destruct (Qlt_le_dec q 0) as [Hlow|Hlow].
  { rewrite clamp_confidence_below by done. split; by vm_compute. }
  destruct (Qlt_le_dec 1 q) as [Hhigh|Hhigh].
  { rewrite clamp_confidence_above by done. split; by vm_compute. }
  by rewrite clamp_confidence_inside.
Qed.

Lemma message_content_truthy response content :
  LLMClient.message_content response = Some content →
  Json.truthy response = true.
Proof.
  destruct response as [| | | | |items]; try discriminate.
  destruct items; [discriminate|reflexivity].
Qed.


End Gateway.

(** ** Fallback and merge in the handler *)

Section Orchestrator.
Variable json_loads : string → option json.
Variable pydantic_str : json → option string.
Variable format_percent : Q → string.
Variables (cfg : Config) (llm_client : option (Z → gateway_result)).
Variables (h : heap) (candidates : list addr) (max_products : Z).
Variable response_data : CurateResponse.t.

Lemma apply_llm_unavailable :
  gateway_unavailable json_loads pydantic_str cfg llm_client max_products →
  Main.apply_llm cfg llm_client h candidates max_products response_data
  = response_data.
Proof.
  unfold Main.apply_llm.
  intros [Hoff|Hnone|c Hc Hraise|c Hc Hret|o Hc Hinv].
  - by rewrite Hoff.
  - rewrite Hnone. by destruct (USE_LLM cfg).
  - rewrite Hc, Hraise. by destruct (USE_LLM cfg).
  - rewrite Hc, Hret. by destruct (USE_LLM cfg).
  - rewrite Hc. unfold LLMClient.client.
    rewrite (invalid_output_none _ _ _ _ Hinv). by destruct (USE_LLM cfg).
Qed.

Lemma apply_llm_success c llm_response :
  USE_LLM cfg = true → llm_client = Some c →
  c max_products = GatewayReturns (Some llm_response) →
  Main.apply_llm cfg llm_client h candidates max_products response_data
  = Main.merge_llm h candidates max_products response_data llm_response.
Proof.
  intros Hon Hc Hret. unfold Main.apply_llm. by rewrite Hon, Hc, Hret.
Qed.

Lemma validate_response_in_range r :
  (0 <= CurateResponse.confidence r)%Q → (CurateResponse.confidence r <= 1)%Q →
  Main.validate_response r = Http200 r.
Proof.
  intros H0 H1. unfold Main.validate_response.
  assert (Hlo : Qle_bool 0.0 (CurateResponse.confidence r) = true)
    by (apply Qle_bool_iff; lra).
  assert (Hhi : Qle_bool (CurateResponse.confidence r) 1.0 = true)
    by (apply Qle_bool_iff; lra).
  by rewrite Hlo, Hhi.
Qed.

End Orchestrator.

Section Fallback.
Variable json_loads : string → option json.
Variable pydantic_str : json → option string.
Variable format_percent : Q → string.

Lemma curate_products_fallback cfg products llm_client request now h :
  products ≠ [] →
  gateway_unavailable json_loads pydantic_str cfg llm_client
    (Main.effective_max cfg request) →
  Main.curate_products format_percent cfg products llm_client request now h
  = (Main.request_heap h products request,
     Http200
       (Main.base_response format_percent (Main.request_heap h products request)
          (Main.request_candidates cfg h products request) request
          (Main.effective_max cfg request) now)).
Proof.
  intros Hne Hgw.
  rewrite curate_products_unfold by done.
  rewrite (apply_llm_unavailable json_loads pydantic_str) by done.
  rewrite validate_response_in_range; [reflexivity| |]; by vm_compute.
Qed.

Lemma curate_products_merged cfg products c request now h llm_response :
  products ≠ [] →
  USE_LLM cfg = true →
  c (Main.effective_max cfg request) = GatewayReturns (Some llm_response) →
  (0 <= LLMResponse.confidence llm_response)%Q →
  (LLMResponse.confidence llm_response <= 1)%Q →
  Main.curate_products format_percent cfg products (Some c) request now h
  = (Main.request_heap h products request,
     Http200
       (Main.merge_llm (Main.request_heap h products request)
          (Main.request_candidates cfg h products request)
          (Main.effective_max cfg request)
          (Main.base_response format_percent (Main.request_heap h products request)
             (Main.request_candidates cfg h products request) request
             (Main.effective_max cfg request) now)
          llm_response)).
Proof.
  intros Hne Hon Hret H0 H1.
  rewrite curate_products_unfold by done.
  erewrite apply_llm_success; [|done|reflexivity|exact Hret].
  by rewrite validate_response_in_range.
Qed.

End Fallback.

(** X26: when the gateway is disabled, was never created, raises, returns
    nothing, or produces an output that fails one of the tests of the code
    (transport failure, status other than 200, body or content that is not
    JSON, missing [curatedProductIds] / [reasoning] / [confidence], a
    required or optional list field that is not a list, a [confidence]
    that is neither a number nor a boolean or is an integer beyond the
    float range, a list element the response model rejects), the handler
    answers with exactly the rule-based response built before the gateway
    block, whose confidence is 0.8. *)
Theorem fallback_returns_base_result json_loads pydantic_str format_percent
    cfg products llm_client request now h :
  products ≠ [] →
  gateway_unavailable json_loads pydantic_str cfg llm_client
    (Main.effective_max cfg request) →
  Main.curate_products format_percent cfg products llm_client request now h
  = (Main.request_heap h products request,
     Http200
       (Main.base_response format_percent (Main.request_heap h products request)
          (Main.request_candidates cfg h products request) request
          (Main.effective_max cfg request) now))
  ∧ CurateResponse.confidence
      (Main.base_response format_percent (Main.request_heap h products request)
         (Main.request_candidates cfg h products request) request
         (Main.effective_max cfg request) now) = 0.8%Q.
Proof.
  intros Hne Hgw. split; [|reflexivity].
  by apply (curate_products_fallback json_loads pydantic_str).
Qed.

Lemma fallback_returns_base_result_witness :
  acme_catalog ≠ []
  ∧ gateway_unavailable (example_json_loads 0.9) Json.as_str (example_config true)
      (Some (LLMClient.client (example_json_loads 0.9) Json.as_str
               (PostReturns 503 None)))
      (Main.effective_max (example_config true) example_request)
  ∧ (Main.curate_products example_format_percent (example_config true)
       acme_catalog
       (Some (LLMClient.client (example_json_loads 0.9) Json.as_str
                (PostReturns 503 None)))
       example_request 0 acme_heap).2
    = Http200
        (Main.base_response example_format_percent
           (Main.request_heap acme_heap acme_catalog example_request)
           (Main.request_candidates (example_config true) acme_heap acme_catalog
              example_request)
           example_request 10 0).
Proof.
  assert (Hne : acme_catalog ≠ []) by discriminate.
  assert (Hgw : gateway_unavailable (example_json_loads 0.9) Json.as_str
                  (example_config true)
                  (Some (LLMClient.client (example_json_loads 0.9) Json.as_str
                           (PostReturns 503 None)))
                  (Main.effective_max (example_config true) example_request)).
  { eapply gateway_invalid; [reflexivity|].
    apply LLMClient.status_not_200. discriminate. }
  split; [exact Hne|]. split; [exact Hgw|].
  destruct (fallback_returns_base_result (example_json_loads 0.9) Json.as_str
              example_format_percent (example_config true) acme_catalog _
              example_request 0 acme_heap Hne Hgw) as [Heq _].
  rewrite Heq. reflexivity.
Defined.

(** C1: the fallback guarantee does not hold for a gateway content whose
    [confidence] is the JSON boolean [true], a field of the wrong type:
    the test [isinstance(v, (int, float))] lets it through, [float(True)]
    is 1.0, and the handler returns the gateway-derived response, with
    confidence 1 and the gateway's reasoning and identifiers, instead of
    the rule-based response, whose confidence is 0.8. *)
Theorem boolean_confidence_escapes_fallback :
  Json.lookup "confidence"
    (default [] (Json.as_dict boolean_payload)) = Some (JBool true)
  ∧ ∃ r,
      (Main.curate_products example_format_percent (example_config true)
         acme_catalog (Some boolean_client) example_request 0 acme_heap).2
      = Http200 r
      ∧ CurateResponse.confidence r = 1%Q
      ∧ CurateResponse.reasoning r = ["picked by the model"]
      ∧ CurateResponse.curatedProductIds r = ["S2"; "GHOST"]
      ∧ CurateResponse.confidence
          (Main.base_response example_format_percent
             (Main.request_heap acme_heap acme_catalog example_request)
             (Main.request_candidates (example_config true) acme_heap
                acme_catalog example_request)
             example_request 10 0) = 0.8%Q
      ∧ r ≠ Main.base_response example_format_percent
              (Main.request_heap acme_heap acme_catalog example_request)
              (Main.request_candidates (example_config true) acme_heap
                 acme_catalog example_request)
              example_request 10 0.
Proof.
  split; [reflexivity|].
  eexists. split; [by vm_compute|].
  split; [reflexivity|]. split; [reflexivity|]. split; [reflexivity|].
  split; [reflexivity|].
  intros Heq. apply (f_equal CurateResponse.confidence) in Heq.
  vm_compute in Heq. discriminate Heq.
Qed.




(** ** Mapping identifiers back to records *)

Section MapSkus.
Variables (h : heap) (candidates : list addr).

Lemma foldl_insert_lookup s (l : list addr) : ∀ m : gmap string addr,
  foldl (λ m a, <[ Main.sku_or_id (h a) := a ]> m) m l !! s
  = match last (filter (λ a, Main.sku_or_id (h a) = s) l) with
    | Some a => Some a
    | None => m !! s
    end.
Proof.
  induction l as [|a l IH]; intros m; simpl; [done|].
  rewrite IH, filter_cons. case_decide as Hk.
  - rewrite last_cons. destruct (last _); [done|].
    rewrite Hk. apply lookup_insert_eq.
  - destruct (last _); [done|]. by apply lookup_insert_ne.
Qed.

(** The dictionary maps an identifier to the last candidate filed under
    it. *)
Lemma sku_to_product_lookup s :
  Main.sku_to_product h candidates !! s
  = last (filter (λ a, Main.sku_or_id (h a) = s) candidates).
Proof.
  unfold Main.sku_to_product. rewrite foldl_insert_lookup.
  by destruct (last _).
Qed.

Lemma sku_to_product_Some s a :
  Main.sku_to_product h candidates !! s = Some a →
  a ∈ candidates ∧ Main.sku_or_id (h a) = s.
Proof.
  rewrite sku_to_product_lookup. intros Hlast.
  apply last_Some in Hlast as [l' Hl'].
  assert (Ha : a ∈ filter (λ a, Main.sku_or_id (h a) = s) candidates).
  { rewrite Hl'. apply elem_of_app. right. apply list_elem_of_here. }
  apply list_elem_of_filter in Ha. tauto.
Qed.

Lemma sku_to_product_None s :
  Main.sku_to_product h candidates !! s = None ↔
  s ∉ candidate_keys h candidates.
Proof.
  rewrite sku_to_product_lookup, last_None. unfold candidate_keys. split.
  - intros Hnil Hin. apply list_elem_of_fmap in Hin as (a & -> & Ha).
    by apply (filter_nil_not_elem_of _ _ a Hnil).
  - intros Hnot. destruct (filter _ candidates) as [|a l] eqn:Hf; [done|].
    exfalso. apply Hnot.
    assert (Ha : a ∈ filter (λ a, Main.sku_or_id (h a) = s) candidates)
      by (rewrite Hf; apply list_elem_of_here).
    apply list_elem_of_filter in Ha as [<- Ha].
    by apply (list_elem_of_fmap_2 (λ a, Main.sku_or_id (h a))).
Qed.

(** Unknown identifiers are dropped, known ones are kept in their order,
    and a record carries the identifier it was looked up by. *)
Lemma map_skus_follow skus :
  records_follow_ids (candidate_keys h candidates) skus
    (h <$> Main._map_skus_to_products h skus candidates).
Proof.
  unfold records_follow_ids, Main._map_skus_to_products.
  induction skus as [|s skus IH]; simpl; [done|].
  rewrite filter_cons.
  destruct (Main.sku_to_product h candidates !! s) as [a|] eqn:Hs.
  - pose proof (sku_to_product_Some _ _ Hs) as [Ha Hk].
    rewrite decide_True.
    + simpl. f_equal; [exact Hk|exact IH].
    + rewrite <- Hk. by apply (list_elem_of_fmap_2 (λ a, Main.sku_or_id (h a))).
  - apply sku_to_product_None in Hs. by rewrite decide_False.
Qed.

Lemma map_skus_candidates skus a :
  a ∈ Main._map_skus_to_products h skus candidates → a ∈ candidates.
Proof.
  unfold Main._map_skus_to_products. rewrite list_elem_of_omap.
  intros (s & _ & Hs). by apply sku_to_product_Some in Hs as [? _].
Qed.

Lemma map_skus_length skus :
  (length (Main._map_skus_to_products h skus candidates) ≤ length skus)%nat.
Proof.
  unfold Main._map_skus_to_products.
  induction skus as [|s skus IH]; simpl in *; [done|].
  destruct (_ !! s); simpl; [apply le_n_S, IH|apply le_S, IH].
Qed.

(** Identifier lists computed from candidates name candidates only. *)
Lemma candidates_follow (sub : list addr) :
  sub ⊆ candidates →
  records_follow_ids (candidate_keys h candidates)
    ((λ a, Main.sku_or_id (h a)) <$> sub) (h <$> sub).
Proof.
  intros Hsub. unfold records_follow_ids.
  rewrite <- list_fmap_compose.
  induction sub as [|a sub IH]; simpl; [done|].
  rewrite filter_cons, decide_True.
  - f_equal. apply IH. intros x Hx. apply Hsub. by right.
  - apply (list_elem_of_fmap_2 (λ a, Main.sku_or_id (h a))). apply Hsub. by left.
Qed.

End MapSkus.

Lemma py_slice_to_subseteq {A} (l : list A) n : py_slice_to l n ⊆ l.
Proof. unfold py_slice_to. destruct (0 <=? n); apply subseteq_take. Qed.

Lemma py_slice_to_all {A} (l : list A) n :
  0 ≤ n → (length l ≤ Z.to_nat n)%nat → py_slice_to l n = l.
Proof.
  intros Hn Hlen. unfold py_slice_to.
  destruct (Z.leb_spec 0 n); [|lia]. by apply take_ge.
Qed.

Lemma py_slice_to_length {A} (l : list A) n :
  0 ≤ n → (length (py_slice_to l n) ≤ Z.to_nat n)%nat.
Proof.
  intros Hn. unfold py_slice_to.
  destruct (Z.leb_spec 0 n); [|lia]. rewrite length_take. lia.
Qed.

Section GatewayAnswer.
Variable json_loads : string → option json.
Variable pydantic_str : json → option string.

#[local] Arguments LLMClient.validate_str_list : simpl never.

Lemma validate_str_list_length l k :
  LLMClient.validate_str_list pydantic_str (JArr l) = Some k →
  length k = length l.
Proof.
  unfold LLMClient.validate_str_list. simpl. intros Hk.
  symmetry. by eapply length_mapM.
Qed.

(** What the handler can rely on when the client returns an answer. *)
Lemma finalize_candidates_Some o max_products llm_response :
  LLMClient.finalize_candidates json_loads pydantic_str o max_products
    = Some llm_response →
  (0 <= LLMResponse.confidence llm_response)%Q
  ∧ (LLMResponse.confidence llm_response <= 1)%Q
  ∧ (0 ≤ max_products →
     (length (LLMResponse.curatedProductIds llm_response)
      ≤ Z.to_nat max_products)%nat).
Proof.
  unfold LLMClient.finalize_candidates, LLMClient._call_llm_api.
  destruct o as [|status_code [response|]]; [done| |by destruct (_ =? _)].
  destruct (status_code =? 200); [|done].
  destruct (Json.truthy response); [|done].
  unfold LLMClient._parse_llm_response, LLMClient.build_response.
  intros Hsome.
  repeat match type of Hsome with
  | (_ ≫= _) = Some _ =>
      let x := fresh "x" in let Hx := fresh "Hx" in
      apply bind_Some in Hsome as (x & Hx & Hsome)
  end.
  injection Hsome as <-. simpl.
  split; [apply clamp_confidence_range|].
  split; [apply clamp_confidence_range|].
  intros Hmax.
  match goal with
  | H : LLMClient.validate_str_list _ (JArr (py_slice_to _ _)) = Some _ |- _ =>
      rewrite (validate_str_list_length _ _ H)
  end.
  by apply py_slice_to_length.
Qed.

End GatewayAnswer.

(** ** Identifier lists and record lists of a response *)

Section ResponseLists.
Variable format_percent : Q → string.
Variables (h : heap) (candidates : list addr) (request : CurateRequest).
Variables (max_products now : Z).

Lemma filter_subseteq (P : addr → Prop) `{∀ a, Decision (P a)} (l : list addr) :
  filter P l ⊆ l.
Proof. intros a Ha. by apply list_elem_of_filter in Ha as [_ ?]. Qed.

Lemma base_response_lockstep :
  Forall (λ pair, pair.1 = Main.sku_or_id <$> pair.2)
    (response_pairs
       (Main.base_response format_percent h candidates request max_products now)).
Proof.
  unfold response_pairs, Main.base_response. simpl.
  repeat constructor; simpl; by rewrite <- list_fmap_compose.
Qed.

Lemma base_response_follow :
  Forall (λ pair, records_follow_ids (candidate_keys h candidates) pair.1 pair.2)
    (response_pairs
       (Main.base_response format_percent h candidates request max_products now)).
Proof.
  unfold response_pairs, Main.base_response. simpl.
  repeat constructor; simpl; apply candidates_follow.
  - apply py_slice_to_subseteq.
  - etrans; [apply py_slice_to_subseteq|apply filter_subseteq].
  - etrans; [apply py_slice_to_subseteq|apply filter_subseteq].
  - etrans; [apply py_slice_to_subseteq|].
    unfold Main._get_local_favorite_products. apply filter_subseteq.
Qed.

Lemma merge_llm_follow response_data llm_response :
  0 ≤ max_products →
  (length (LLMResponse.curatedProductIds llm_response)
   ≤ Z.to_nat max_products)%nat →
  Forall (λ pair, records_follow_ids (candidate_keys h candidates) pair.1 pair.2)
    (response_pairs
       (Main.merge_llm h candidates max_products response_data llm_response)).
Proof.
  intros Hmax Hlen. unfold response_pairs, Main.merge_llm. simpl.
  repeat constructor; simpl; try apply map_skus_follow.
  rewrite !py_slice_to_all; [apply map_skus_follow|done| |done|done].
  etrans; [apply map_skus_length|done].
Qed.

End ResponseLists.


(** C4: when the gateway answers, every identifier list of its answer is
    kept as the identifier list of the response (the curated one cut to
    the product count), identifiers that name no candidate included; each
    full-record list holds, in the gateway's order, one candidate record
    for each identifier that names a candidate, filed under that very
    identifier, and nothing for the identifiers that name none. *)
Theorem gateway_identifiers_remapped format_percent cfg products c request
    now h llm_response :
  products ≠ [] →
  USE_LLM cfg = true →
  c (Main.effective_max cfg request) = GatewayReturns (Some llm_response) →
  (0 <= LLMResponse.confidence llm_response)%Q →
  (LLMResponse.confidence llm_response <= 1)%Q →
  ∃ r,
    Main.curate_products format_percent cfg products (Some c) request now h
    = (Main.request_heap h products request, Http200 r)
    ∧ CurateResponse.curatedProductIds r
      = py_slice_to (LLMResponse.curatedProductIds llm_response)
          (Main.effective_max cfg request)
    ∧ CurateResponse.platinumSupplierProducts r
      = LLMResponse.platinumSupplierProducts llm_response
    ∧ CurateResponse.bundledPacks r = LLMResponse.bundledPacks llm_response
    ∧ CurateResponse.localFavorites r = LLMResponse.localFavorites llm_response
    ∧ (∃ full,
         records_follow_ids
           (candidate_keys (Main.request_heap h products request)
              (Main.request_candidates cfg h products request))
           (LLMResponse.curatedProductIds llm_response) full
         ∧ CurateResponse.curatedProducts r
           = py_slice_to full (Main.effective_max cfg request))
    ∧ Forall (λ pair,
        records_follow_ids
          (candidate_keys (Main.request_heap h products request)
             (Main.request_candidates cfg h products request))
          pair.1 pair.2)
        (tail (response_pairs r))
    ∧ Forall (λ pair,
        pair.2 ⊆ Main.request_heap h products request
                 <$> Main.request_candidates cfg h products request)
        (response_pairs r).
Proof.
  intros Hne Hon Hret H0 H1. eexists. split.
  { by apply curate_products_merged. }
  repeat (split; [reflexivity|]). split; [|split].
  - eexists. split; [apply map_skus_follow|]. simpl.
    by rewrite py_slice_to_fmap.
  - unfold response_pairs, Main.merge_llm. simpl.
    repeat constructor; simpl; apply map_skus_follow.
  - unfold response_pairs, Main.merge_llm. simpl.
    repeat constructor; simpl; intros p Hp;
      apply list_elem_of_fmap in Hp as (a & -> & Ha);
      apply list_elem_of_fmap_2;
      try apply py_slice_to_subseteq in Ha;
      by eapply map_skus_candidates.
Qed.

Lemma gateway_identifiers_remapped_witness :
  ∃ r,
    (Main.curate_products example_format_percent (example_config true)
       acme_catalog (Some (example_client 0.9)) example_request 0 acme_heap).2
    = Http200 r
    ∧ CurateResponse.curatedProductIds r = ["S2"; "GHOST"]
    ∧ CurateResponse.platinumSupplierProducts r = ["GHOST"; "S1"].
Proof.
  destruct (gateway_identifiers_remapped example_format_percent
              (example_config true) acme_catalog (example_client 0.9)
              example_request 0 acme_heap
              {| LLMResponse.curatedProductIds := ["S2"; "GHOST"];
                 LLMResponse.reasoning := ["picked by the model"];
                 LLMResponse.confidence := 0.9;
                 LLMResponse.platinumSupplierProducts := ["GHOST"; "S1"];
                 LLMResponse.bundledPacks := [];
                 LLMResponse.localFavorites := [];
                 LLMResponse.businessInsights := [];
                 LLMResponse.nextSteps := [] |})
    as (r & Heq & Hids & Hplat & _).
  - discriminate.
  - reflexivity.
  - reflexivity.
  - by vm_compute.
  - by vm_compute.
  - exists r. rewrite Heq. split; [reflexivity|]. split; [exact Hids|exact Hplat].
Defined.

(** C3, as amended: in every response of a request with a non-negative
    product count, each full-record list is aligned, in order, with the
    identifiers of its identifier list that name a candidate; when the
    gateway is disabled, fails or is not accepted (the deterministic
    result) every identifier names a candidate, so each identifier list is
    exactly the list of identifiers of its record list: same length, same
    order. *)
Theorem identifiers_and_records_aligned json_loads pydantic_str format_percent
    cfg products llm_client request now h :
  products ≠ [] →
  0 ≤ Main.effective_max cfg request →
  llm_client = None
  ∨ (∃ o, llm_client = Some (LLMClient.client json_loads pydantic_str o)) →
  ∃ r,
    Main.curate_products format_percent cfg products llm_client request now h
    = (Main.request_heap h products request, Http200 r)
    ∧ Forall (λ pair,
        records_follow_ids
          (candidate_keys (Main.request_heap h products request)
             (Main.request_candidates cfg h products request))
          pair.1 pair.2)
        (response_pairs r)
    ∧ (gateway_unavailable json_loads pydantic_str cfg llm_client
         (Main.effective_max cfg request) →
       Forall (λ pair, pair.1 = Main.sku_or_id <$> pair.2
                       ∧ length pair.1 = length pair.2)
         (response_pairs r)).
Proof.
  intros Hne Hmax Hclient.
  assert (Hbase : ∀ r,
    Main.curate_products format_percent cfg products llm_client request now h
      = (Main.request_heap h products request, Http200 r) →
    gateway_unavailable json_loads pydantic_str cfg llm_client
      (Main.effective_max cfg request) →
    Forall (λ pair, pair.1 = Main.sku_or_id <$> pair.2
                    ∧ length pair.1 = length pair.2)
      (response_pairs r)).
  { intros r Hr Hgw.
    rewrite (curate_products_fallback json_loads pydantic_str) in Hr by done.
    injection Hr as <-.
    eapply Forall_impl; [apply base_response_lockstep|].
    intros pair Hp. split; [done|]. by rewrite Hp, length_fmap. }
  assert (Hfallback :
    gateway_unavailable json_loads pydantic_str cfg llm_client
      (Main.effective_max cfg request) →
    ∃ r,
      Main.curate_products format_percent cfg products llm_client request now h
      = (Main.request_heap h products request, Http200 r)
      ∧ Forall (λ pair,
          records_follow_ids
            (candidate_keys (Main.request_heap h products request)
               (Main.request_candidates cfg h products request))
            pair.1 pair.2)
          (response_pairs r)
      ∧ (gateway_unavailable json_loads pydantic_str cfg llm_client
           (Main.effective_max cfg request) →
         Forall (λ pair, pair.1 = Main.sku_or_id <$> pair.2
                         ∧ length pair.1 = length pair.2)
           (response_pairs r))).
  { intros Hgw. eexists. split.
    { by apply (curate_products_fallback json_loads pydantic_str). }
    split; [apply base_response_follow|].
    intros _. apply Hbase; [|done].
    by apply (curate_products_fallback json_loads pydantic_str). }
  destruct (USE_LLM cfg) eqn:Hon.
  2: { apply Hfallback. by apply gateway_disabled. }
  destruct Hclient as [Hnone|[o Ho]].
  { apply Hfallback. by apply gateway_not_created. }
  destruct (LLMClient.finalize_candidates json_loads pydantic_str o
              (Main.effective_max cfg request)) as [llm_response|] eqn:Hfin.
  2: { apply Hfallback. eapply gateway_returns_none; [exact Ho|].
       unfold LLMClient.client. by rewrite Hfin. }
  pose proof (finalize_candidates_Some _ _ _ _ _ Hfin) as (H0 & H1 & Hlen).
  subst llm_client. eexists. split.
  { apply curate_products_merged; [done|done| |done|done].
    unfold LLMClient.client. by rewrite Hfin. }
  split.
  - apply merge_llm_follow; [done|by apply Hlen].
  - apply Hbase. apply curate_products_merged; [done|done| |done|done].
    unfold LLMClient.client. by rewrite Hfin.
Qed.

Lemma identifiers_and_records_aligned_witness :
  ∃ r,
    (Main.curate_products example_format_percent (example_config false)
       acme_catalog None example_request 0 acme_heap).2 = Http200 r
    ∧ CurateResponse.curatedProductIds r
      = Main.sku_or_id <$> CurateResponse.curatedProducts r.
Proof.
  destruct (identifiers_and_records_aligned (example_json_loads 0.9) Json.as_str
              example_format_percent (example_config false) acme_catalog None
              example_request 0 acme_heap)
    as (r & Heq & _ & Hdet).
  - discriminate.
  - by vm_compute.
  - by left.
  - exists r. rewrite Heq. split; [reflexivity|].
    assert (Hgw : gateway_unavailable (example_json_loads 0.9) Json.as_str
                    (example_config false) None
                    (Main.effective_max (example_config false) example_request))
      by (by apply gateway_disabled).
    specialize (Hdet Hgw). apply Forall_cons in Hdet as [[Hids _] _].
    exact Hids.
Defined.

(** C3 as stated fails on a gateway-derived response: the gateway names
    "S2" and an identifier that is no candidate; the identifier list of the
    response has two entries and its record list one. *)
Lemma gateway_lists_differ_in_length :
  ∃ r,
    (Main.curate_products example_format_percent (example_config true)
       acme_catalog (Some (example_client 0.9)) example_request 0 acme_heap).2
    = Http200 r
    ∧ length (CurateResponse.curatedProductIds r) = 2%nat
    ∧ length (CurateResponse.curatedProducts r) = 1%nat
    ∧ length (CurateResponse.curatedProductIds r)
      ≠ length (CurateResponse.curatedProducts r).
Proof.
  eexists. split; [by vm_compute|]. by vm_compute.
Qed.

(** C10: in the rule-based response every identifier list holds, position
    by position, the identifier of the record at that position of its
    record list (the SKU when present and non-empty, the id otherwise);
    the dictionary used to map gateway identifiers back to records files
    each candidate under that same identifier. *)
Theorem identifiers_are_sku_or_id format_percent h candidates request
    max_products now :
  Forall (λ pair,
      length pair.1 = length pair.2
      ∧ ∀ (i : nat) p, pair.2 !! i = Some p → pair.1 !! i = Some (identifier_of p))
    (response_pairs
       (Main.base_response format_percent h candidates request max_products now))
  ∧ (∀ s a, Main.sku_to_product h candidates !! s = Some a →
            a ∈ candidates ∧ identifier_of (h a) = s)
  ∧ (∀ a, a ∈ candidates →
          is_Some (Main.sku_to_product h candidates !! identifier_of (h a))).
Proof.
  split; [|split].
  - eapply Forall_impl; [apply base_response_lockstep|].
    intros [ids records] Hp. simpl in *. subst ids. split.
    + by rewrite length_fmap.
    + intros i p Hi. rewrite list_lookup_fmap, Hi. reflexivity.
  - intros s a Hs. by apply sku_to_product_Some in Hs.
  - intros a Ha.
    destruct (Main.sku_to_product h candidates !! identifier_of (h a)) eqn:Hs;
      [by eexists|].
    apply sku_to_product_None in Hs. exfalso. apply Hs.
    by apply (list_elem_of_fmap_2 (λ a, Main.sku_or_id (h a))).
Qed.

(** The secondary sort key looks the tier up as written, with 0 for a
    missing table entry, while the supplier boost lower-cases the tier and
    falls back to the table's default. *)
Lemma sort_key_tier_is_case_sensitive :
  (sort_key (example_product "1" None None (Some "PLATINUM"))).1.2 = 0%Q
  ∧ _calculate_supplier_boost (example_product "1" None None (Some "PLATINUM"))
    = 1.0%Q
  ∧ (sort_key (example_product "1" None None (Some "unknown"))).1.2 = 0%Q
  ∧ _calculate_supplier_boost (example_product "1" None None (Some "unknown"))
    = 0.5%Q.
Proof. repeat split; by vm_compute. Qed.

(** * Further properties of the scoring engine *)

Section ScoreBounds.
Variable profile : Profile.

Ltac split_ifs :=
  repeat match goal with
  | |- context [if ?b then _ else _] => destruct b
  end.

Lemma locality_score_bounds p :
  (0 <= _calculate_locality_score p profile)%Q
  ∧ (_calculate_locality_score p profile <= 0.8)%Q.
Proof.
  unfold _calculate_locality_score.
  generalize (_get_location_from_profile profile). intros location.
  split_ifs; by vm_compute.
Qed.

Lemma supplier_boost_bounds p :
  (0.4 <= _calculate_supplier_boost p)%Q ∧ (_calculate_supplier_boost p <= 1)%Q.
Proof.
  unfold _calculate_supplier_boost, supplier_weights.
  split_ifs; by vm_compute.
Qed.

Lemma category_fitness_bounds p :
  (0.1 <= _calculate_category_fitness p profile)%Q
  ∧ (_calculate_category_fitness p profile <= 1)%Q.
Proof.
  unfold _calculate_category_fitness, venue_weights.
  generalize (_extract_category p). intros category.
  split_ifs;
    cbv beta iota delta [default from_option Datatypes.id restaurant_weights row];
    cbn [String.eqb Ascii.eqb Bool.eqb];
    split_ifs; by vm_compute.
Qed.

Lemma composite_of_bounds l c s b :
  (0 <= l)%Q → (l <= 0.8)%Q → (0 <= c)%Q → (c <= 1)%Q →
  (0 <= s)%Q → (s <= 1)%Q →
  (0 <= composite_of l c s b)%Q ∧ (composite_of l c s b <= 0.85)%Q
  ∧ (composite_of l c s b
     == 0.3 * l + 0.4 * c + 0.2 * s + 0.1 * (if b then 0.1 else 0.0))%Q.
Proof.
  intros Hl0 Hl1 Hc0 Hc1 Hs0 Hs1. unfold composite_of.
  assert (Hb : (0 <= 0.1 * (if b then 0.1 else 0.0))%Q
               ∧ (0.1 * (if b then 0.1 else 0.0) <= 0.01)%Q)
    by (destruct b; split; by vm_compute).
  destruct Hb as [Hb0 Hb1].
  destruct (Q.min_spec
              (0.3 * l + 0.4 * c + 0.2 * s + 0.1 * (if b then 0.1 else 0.0))
              1.0) as [[Hlt ->]|[Hge Heq]].
  - repeat split; lra.
  - exfalso. lra.
Qed.

End ScoreBounds.

Section StaleScores.
Variable profile : Profile.

Lemma locality_with_scores p l c s k :
  _calculate_locality_score (with_scores p l c s k) profile
  = _calculate_locality_score p profile.
Proof.
  unfold with_scores.
  by rewrite locality_set_composite, locality_set_supplier,
    locality_set_category, locality_set_locality.
Qed.

Lemma category_with_scores p l c s k :
  _calculate_category_fitness (with_scores p l c s k) profile
  = _calculate_category_fitness p profile.
Proof.
  unfold with_scores.
  by rewrite category_set_composite, category_set_supplier,
    category_set_category, category_set_locality.
Qed.

Lemma supplier_with_scores p l c s k :
  _calculate_supplier_boost (with_scores p l c s k) = _calculate_supplier_boost p.
Proof.
  unfold with_scores.
  by rewrite supplier_set_composite, supplier_set_supplier,
    supplier_set_category, supplier_set_locality.
Qed.

(** The record written by the scoring loop is a function of the base
    attributes of the record it finds. *)
Lemma rescore_of_base p :
  rescore profile p = rescore profile (with_scores p 0 0 0 0).
Proof.
  rewrite (rescore_eq profile (with_scores p 0 0 0 0)), rescore_eq.
  rewrite locality_with_scores, category_with_scores, supplier_with_scores.
  symmetry. apply with_scores_twice.
Qed.

Lemma same_base_rescore p q :
  same_base p q → rescore profile p = rescore profile q.
Proof.
  unfold same_base. intros Hb.
  by rewrite (rescore_of_base p), (rescore_of_base q), Hb.
Qed.

Lemma same_base_visible p q : same_base p q → is_visible p = is_visible q.
Proof.
  unfold same_base. intros Hb.
  change (is_visible (with_scores p 0 0 0 0) = is_visible (with_scores q 0 0 0 0)).
  by rewrite Hb.
Qed.

End StaleScores.

Section SortExt.
Context {A K : Type} (ltb : K → K → bool).

Lemma insert_desc_ext (key1 key2 : A → K) x l :
  key1 x = key2 x → (∀ y, y ∈ l → key1 y = key2 y) →
  insert_desc ltb key1 x l = insert_desc ltb key2 x l.
Proof.
  intros Hx. induction l as [|y l IH]; intros Hl; simpl; [done|].
  rewrite Hx, (Hl y) by left.
  destruct (ltb (key2 x) (key2 y)); [|done].
  f_equal. apply IH. intros z Hz. apply Hl. by right.
Qed.

Lemma sorted_reverse_ext (key1 key2 : A → K) l :
  (∀ y, y ∈ l → key1 y = key2 y) →
  sorted_reverse ltb key1 l = sorted_reverse ltb key2 l.
Proof.
  induction l as [|x l IH]; intros Hl; simpl; [done|].
  fold (sorted_reverse ltb key1 l). fold (sorted_reverse ltb key2 l).
  rewrite <- IH by (intros y Hy; apply Hl; by right).
  apply insert_desc_ext; [apply Hl; by left|].
  intros y Hy. apply Hl. right.
  by rewrite sorted_reverse_perm in Hy.
Qed.

End SortExt.

Section Rescoring.
Variables (products : list addr) (profile : Profile).

Lemma score_products_ranking h :
  (score_products h products profile).2
  = sorted_reverse key_ltb
      (λ a, sort_key ((score_products h products profile).1 a))
      (filter (λ a, is_visible (h a) = true) products).
Proof. reflexivity. Qed.

Lemma score_products_same_base h1 h2 :
  (∀ a, same_base (h1 a) (h2 a)) →
  (score_products h1 products profile).2 = (score_products h2 products profile).2
  ∧ (∀ a, a ∈ (score_products h1 products profile).2 →
          (score_products h1 products profile).1 a
          = (score_products h2 products profile).1 a).
Proof.
  intros Hbase.
  assert (Hvis : filter (λ a, is_visible (h1 a) = true) products
                 = filter (λ a, is_visible (h2 a) = true) products).
  { apply list_filter_iff. intros a. by rewrite (same_base_visible _ _ (Hbase a)). }
  assert (Hheap : ∀ a, a ∈ filter (λ a, is_visible (h1 a) = true) products →
            (score_products h1 products profile).1 a
            = (score_products h2 products profile).1 a).
  { intros a Ha. pose proof Ha as Ha2. rewrite Hvis in Ha2.
    apply list_elem_of_filter in Ha as [Hv1 Hin].
    apply list_elem_of_filter in Ha2 as [Hv2 _].
    rewrite !score_products_heap_visible by done.
    by apply same_base_rescore. }
  split.
  - rewrite !score_products_ranking, <- Hvis.
    apply sorted_reverse_ext. intros a Ha. f_equal. by apply Hheap.
  - intros a Ha. apply Hheap. by rewrite <- score_products_scored.
Qed.

End Rescoring.

(** X1: every product of the scored output carries a locality score in
    [0, 0.8], a category fitness in [0.1, 1], a supplier boost in [0.4, 1]
    and a composite score in [0.1, 0.9]: the composite score stays clear of
    the cap at 1.0, and the locality score never reaches its cap. *)
Theorem scored_fields_in_range h products profile a :
  a ∈ (score_products h products profile).2 →
  let p := (score_products h products profile).1 a in
  ((0 <= locality_score p)%Q ∧ (locality_score p <= 0.8)%Q)
  ∧ ((0.1 <= category_fitness p)%Q ∧ (category_fitness p <= 1)%Q)
  ∧ ((0.4 <= supplier_boost p)%Q ∧ (supplier_boost p <= 1)%Q)
  ∧ ((0.1 <= composite_score p)%Q ∧ (composite_score p <= 0.9)%Q).
Proof.
  intros Hin p. apply score_products_elem in Hin as [Hin Hv].
  assert (Hp : p = rescore profile (h a))
    by (by apply score_products_heap_visible).
  rewrite rescore_eq in Hp.
  pose proof (locality_score_bounds profile (h a)) as [Hl0 Hl1].
  pose proof (category_fitness_bounds profile (h a)) as [Hc0 Hc1].
  pose proof (supplier_boost_bounds (h a)) as [Hs0 Hs1].
  assert (Hc0' : (0 <= _calculate_category_fitness (h a) profile)%Q) by lra.
  assert (Hs0' : (0 <= _calculate_supplier_boost (h a))%Q) by lra.
  pose proof (composite_of_bounds _ _ _ (is_bundle (h a))
                Hl0 Hl1 Hc0' Hc1 Hs0' Hs1) as (Hk0 & Hk1 & Hk).
  rewrite Hp. cbn [with_scores set_composite_score set_supplier_boost
    set_category_fitness set_locality_score locality_score category_fitness
    supplier_boost composite_score is_bundle].
  repeat split; try done.
  - rewrite Hk. destruct (is_bundle (h a)); lra.
  - lra.
Qed.

Lemma scored_fields_in_range_witness :
  0%nat ∈ (score_products acme_heap acme_catalog sydney_profile).2
  ∧ (composite_score
       ((score_products acme_heap acme_catalog sydney_profile).1 0%nat)
     <= 0.9)%Q.
Proof.
  assert (H0 : 0%nat ∈ (score_products acme_heap acme_catalog sydney_profile).2).
  { rewrite score_products_elem. split; [apply list_elem_of_here|reflexivity]. }
  split; [exact H0|].
  by destruct (scored_fields_in_range acme_heap acme_catalog sydney_profile
                 0%nat H0) as (_ & _ & _ & [_ Hk]).
Defined.

(** X2: along the scored output the composite scores never increase, and
    no product is followed directly by one whose sort key (composite
    score, tier weight as looked up by the sort, supplier name) is
    greater. *)
Theorem ranking_is_descending h products profile :
  StronglySorted
    (λ a b,
      (composite_score ((score_products h products profile).1 b)
       <= composite_score ((score_products h products profile).1 a))%Q)
    (score_products h products profile).2
  ∧ Sorted
      (λ a b,
        key_ltb (sort_key ((score_products h products profile).1 a))
                (sort_key ((score_products h products profile).1 b)) = false)
      (score_products h products profile).2.
Proof.
  split; [|apply score_products_sorted].
  apply Sorted_StronglySorted.
  { intros a b c Hab Hbc. lra. }
  pose proof (score_products_sorted h products profile) as Hs.
  induction Hs as [|a l Hs IH Hhd]; constructor; [exact IH|].
  destruct Hhd as [|b l Hab]; constructor.
  unfold sort_key, key_ltb in Hab.
  destruct (Qcompare_spec
              (composite_score ((score_products h products profile).1 a))
              (composite_score ((score_products h products profile).1 b)))
    as [Heq|Hlt|Hgt]; [lra|discriminate Hab|lra].
Qed.

(** X3: scoring the catalog again for the same profile changes nothing:
    the store after the second pass equals the store after the first, and
    the ranking is the same. *)
Theorem rescoring_is_idempotent h products profile :
  (score_products (score_products h products profile).1 products profile).2
  = (score_products h products profile).2
  ∧ (∀ a,
       (score_products (score_products h products profile).1 products profile).1 a
       = (score_products h products profile).1 a).
Proof.
  pose proof (score_products_same_base products profile
                (score_products h products profile).1 h
                (score_products_base h products profile)) as [Hrank Hheap].
  split; [exact Hrank|].
  intros a.
  destruct (decide (a ∈ products
                    ∧ is_visible ((score_products h products profile).1 a) = true))
    as [[Hin Hv]|Hn].
  - rewrite Hheap; [done|]. rewrite Hrank. apply score_products_elem.
    split; [done|].
    by rewrite <- (same_base_visible _ _ (score_products_base h products profile a)).
  - apply score_products_heap_other.
    destruct (decide (a ∈ products)); [right|left]; tauto.
Qed.

(** X4: the result of a scoring pass does not depend on the score fields
    it finds: two stores that agree on the base attributes of every
    product give the same ranking and the same records for the ranked
    products. *)
Theorem ranking_ignores_stale_scores h1 h2 products profile :
  (∀ a, same_base (h1 a) (h2 a)) →
  (score_products h1 products profile).2 = (score_products h2 products profile).2
  ∧ (∀ a, a ∈ (score_products h1 products profile).2 →
          (score_products h1 products profile).1 a
          = (score_products h2 products profile).1 a).
Proof. apply score_products_same_base. Qed.

Lemma ranking_ignores_stale_scores_witness :
  (score_products (score_products acme_heap acme_catalog sydney_profile).1
     acme_catalog bar_profile).2
  = (score_products acme_heap acme_catalog bar_profile).2.
Proof.
  apply (ranking_ignores_stale_scores
           (score_products acme_heap acme_catalog sydney_profile).1
           acme_heap acme_catalog bar_profile).
  apply score_products_base.
Defined.

(** X5: the candidate selector returns the first [top_k] products of the
    ranked list, in order: never more than [top_k] of them, none for a
    [top_k] that is not positive, and the whole list when it is no longer
    than [top_k]. *)
Theorem select_candidates_is_ranked_prefix h scored top_k :
  select_candidates h scored top_k = take (Z.to_nat top_k) scored
  ∧ (0 ≤ top_k → (length (select_candidates h scored top_k) ≤ Z.to_nat top_k)%nat)
  ∧ (top_k ≤ 0 → select_candidates h scored top_k = [])
  ∧ (Z.of_nat (length scored) ≤ top_k → select_candidates h scored top_k = scored).
Proof.
  rewrite select_candidates_prefix. split; [done|]. split; [|split].
  - intros _. rewrite length_take. lia.
  - intros Hk. by replace (Z.to_nat top_k) with 0%nat by lia.
  - intros Hk. apply take_ge. lia.
Qed.

(** * Further properties of the orchestrator *)

Lemma city_available_local_match city_lower p :
  city_available city_lower p = Main.local_match city_lower p.
Proof.
  unfold city_available, Main.local_match.
  repeat match goal with
  | |- context [String.eqb city_lower ?s] => destruct (String.eqb city_lower s)
  | |- context [sold ?f] => destruct (sold f)
  end; reflexivity.
Qed.

Lemma location_from_profile_same profile :
  Main._get_location_from_profile profile = _get_location_from_profile profile.
Proof. reflexivity. Qed.

Lemma omap_if_filter {A B} (c : A → bool) (f : A → B) (l : list A) :
  omap (λ a, if c a then Some (f a) else None) l
  = f <$> filter (λ a, c a = true) l.
Proof.
  induction l as [|a l IH]; [done|].
  rewrite filter_cons.
  change (omap (λ a, if c a then Some (f a) else None) (a :: l))
    with (match (if c a then Some (f a) else None) with
          | Some y => y :: omap (λ a, if c a then Some (f a) else None) l
          | None => omap (λ a, if c a then Some (f a) else None) l
          end).
  destruct (c a) eqn:Hc.
  - rewrite decide_True by done. rewrite fmap_cons. by f_equal.
  - rewrite decide_False by done. exact IH.
Qed.

Section LocalFavorites.
Variables (h : heap) (profile : Profile).

Lemma local_favorite_products_filter products :
  Main._get_local_favorite_products h products profile
  = filter
      (λ a,
        PyStr.truthy (loc_city (Main._get_location_from_profile profile))
        && Main.local_match
             (PyStr.lower
                (get (loc_city (Main._get_location_from_profile profile))))
             (h a) = true)
      products.
Proof. reflexivity. Qed.

Lemma local_favorites_fmap products :
  Main._get_local_favorites h products profile
  = (λ a, Main.sku_or_id (h a))
    <$> Main._get_local_favorite_products h products profile.
Proof.
  rewrite local_favorite_products_filter.
  apply (omap_if_filter
           (λ a,
             PyStr.truthy (loc_city (Main._get_location_from_profile profile))
             && Main.local_match
                  (PyStr.lower
                     (get (loc_city (Main._get_location_from_profile profile))))
                  (h a))
           (λ a, Main.sku_or_id (h a))).
Qed.

Lemma local_favorites_elem products a :
  a ∈ Main._get_local_favorite_products h products profile
  ↔ a ∈ products
    ∧ PyStr.truthy (loc_city (_get_location_from_profile profile)) = true
    ∧ city_available
        (PyStr.lower (get (loc_city (_get_location_from_profile profile))))
        (h a) = true.
Proof.
  rewrite local_favorite_products_filter, list_elem_of_filter.
  rewrite andb_true_iff, location_from_profile_same,
    city_available_local_match.
  tauto.
Qed.

End LocalFavorites.

Lemma city_available_five_cities city_lower p :
  city_available city_lower p = true → city_lower ∈ five_cities.
Proof.
  unfold city_available, five_cities.
  repeat match goal with
  | |- context [String.eqb city_lower ?s] =>
      destruct (String.eqb_spec city_lower s) as [->|?]
  end; simpl; try discriminate; intros _; set_solver.
Qed.

(** X6: the local-favourites selection of the handler picks exactly the
    products that receive the city bonus of the locality score: the
    profile has a non-empty city and the [if / elif] chain of the scorer
    finds the product sold there. *)
Theorem local_favorites_are_city_bonus h products profile a :
  a ∈ Main._get_local_favorite_products h products profile
  ↔ a ∈ products
    ∧ PyStr.truthy (loc_city (_get_location_from_profile profile)) = true
    ∧ city_available
        (PyStr.lower (get (loc_city (_get_location_from_profile profile))))
        (h a) = true.
Proof. apply local_favorites_elem. Qed.

(** X7: the two local-favourites functions agree: the identifier version
    returns the identifiers of the products the record version returns,
    in the same order. *)
Theorem local_favorites_agree h products profile :
  Main._get_local_favorites h products profile
  = (λ a, Main.sku_or_id (h a))
    <$> Main._get_local_favorite_products h products profile.
Proof. apply local_favorites_fmap. Qed.

(** X8: a profile without a city, with an empty city, or with a city that
    is none of the five the catalog has availability flags for, has no
    local favourites, whatever the products. *)
Theorem no_local_favorites_without_known_city h products profile :
  PyStr.truthy (loc_city (_get_location_from_profile profile)) = false
  ∨ PyStr.lower (get (loc_city (_get_location_from_profile profile)))
    ∉ five_cities →
  Main._get_local_favorite_products h products profile = []
  ∧ Main._get_local_favorites h products profile = [].
Proof.
  intros Hcity.
  assert (Hnil : Main._get_local_favorite_products h products profile = []).
  { destruct (Main._get_local_favorite_products h products profile)
      as [|a l] eqn:Hl; [done|].
    assert (Ha : a ∈ Main._get_local_favorite_products h products profile)
      by (rewrite Hl; apply list_elem_of_here).
    apply local_favorites_elem in Ha as (_ & Htruthy & Hav).
    apply city_available_five_cities in Hav.
    destruct Hcity as [Hf|Hnot]; [congruence|contradiction]. }
  split; [exact Hnil|].
  by rewrite local_favorites_fmap, Hnil.
Qed.

Lemma no_local_favorites_without_known_city_witness :
  Main._get_local_favorite_products acme_heap acme_catalog bar_profile = [].
Proof.
  apply (no_local_favorites_without_known_city acme_heap acme_catalog bar_profile).
  left. reflexivity.
Defined.

Section HandlerCases.
Variable json_loads : string → option json.
Variable pydantic_str : json → option string.
Variable format_percent : Q → string.
Variables (cfg : Config) (products : list addr)
  (llm_client : option (Z → gateway_result)) (request : CurateRequest)
  (now : Z) (h : heap).

(** With the client of the code, or none, a request on a loaded catalog
    ends in one of two ways. *)
Lemma curate_products_cases :
  products ≠ [] →
  llm_client = None
  ∨ (∃ o, llm_client = Some (LLMClient.client json_loads pydantic_str o)) →
  Main.curate_products format_percent cfg products llm_client request now h
  = (Main.request_heap h products request,
     Http200
       (Main.base_response format_percent (Main.request_heap h products request)
          (Main.request_candidates cfg h products request) request
          (Main.effective_max cfg request) now))
  ∨ (∃ llm_response,
       (0 ≤ Main.effective_max cfg request →
        (length (LLMResponse.curatedProductIds llm_response)
         ≤ Z.to_nat (Main.effective_max cfg request))%nat)
       ∧ Main.curate_products format_percent cfg products llm_client request now h
         = (Main.request_heap h products request,
            Http200
              (Main.merge_llm (Main.request_heap h products request)
                 (Main.request_candidates cfg h products request)
                 (Main.effective_max cfg request)
                 (Main.base_response format_percent
                    (Main.request_heap h products request)
                    (Main.request_candidates cfg h products request) request
                    (Main.effective_max cfg request) now)
                 llm_response))).
Proof.
  intros Hne Hclient.
  assert (Hfallback :
    gateway_unavailable json_loads pydantic_str cfg llm_client
      (Main.effective_max cfg request) →
    Main.curate_products format_percent cfg products llm_client request now h
    = (Main.request_heap h products request,
       Http200
         (Main.base_response format_percent (Main.request_heap h products request)
            (Main.request_candidates cfg h products request) request
            (Main.effective_max cfg request) now))).
  { intros Hgw. by apply (curate_products_fallback json_loads pydantic_str). }
  destruct (USE_LLM cfg) eqn:Hon.
  2: { left. apply Hfallback. by apply gateway_disabled. }
  destruct Hclient as [Hnone|[o Ho]].
  { left. apply Hfallback. by apply gateway_not_created. }
  destruct (LLMClient.finalize_candidates json_loads pydantic_str o
              (Main.effective_max cfg request)) as [llm_response|] eqn:Hfin.
  2: { left. apply Hfallback. eapply gateway_returns_none; [exact Ho|].
       unfold LLMClient.client. by rewrite Hfin. }
  pose proof (finalize_candidates_Some _ _ _ _ _ Hfin) as (H0 & H1 & Hlen).
  right. exists llm_response. split; [exact Hlen|].
  subst llm_client. apply curate_products_merged; [done|done| |done|done].
  unfold LLMClient.client. by rewrite Hfin.
Qed.

End HandlerCases.

Lemma py_slice_to_sublist {A} (l : list A) n : py_slice_to l n `sublist_of` l.
Proof. unfold py_slice_to. destruct (0 <=? n); apply sublist_take. Qed.

Lemma py_slice_to_take {A} (l : list A) n :
  0 ≤ n → py_slice_to l n = take (Z.to_nat n) l.
Proof. intros Hn. unfold py_slice_to. by destruct (Z.leb_spec 0 n); [|lia]. Qed.

Lemma py_slice_to_ten {A} (l : list A) : (length (py_slice_to l 10) ≤ 10)%nat.
Proof. apply (py_slice_to_length l 10). lia. Qed.

(** X9: whatever the gateway client is and does, the handler answers
    503 exactly when no product is loaded, and it then leaves the store as
    it found it. *)
Theorem service_unavailable_iff_no_products format_percent cfg products
    llm_client request now h :
  ((Main.curate_products format_percent cfg products llm_client request now h).2
   = Http503 ↔ products = [])
  ∧ (products = [] →
     (Main.curate_products format_percent cfg products llm_client request now h).1
     = h).
Proof.
  split; [split|].
  - destruct products as [|a l]; [done|].
    rewrite curate_products_unfold by done. simpl.
    unfold Main.validate_response. by case_match.
  - by intros ->.
  - by intros ->.
Qed.

(** X10: in the rule-based response the curated list is the first
    [max_products] candidates, each named subset has at most ten entries,
    the platinum subset holds only products whose tier is exactly
    "platinum", the bundle subset only bundles, and every record list is a
    sub-list of the candidate records, in ranking order. *)
Theorem deterministic_lists_are_bounded format_percent h candidates request
    max_products now :
  (0 ≤ max_products →
   CurateResponse.curatedProducts
     (Main.base_response format_percent h candidates request max_products now)
   = h <$> take (Z.to_nat max_products) candidates)
  ∧ Forall (λ pair, (length pair.1 ≤ 10)%nat ∧ (length pair.2 ≤ 10)%nat)
      (tail (response_pairs
         (Main.base_response format_percent h candidates request max_products now)))
  ∧ Forall (λ p, supplier_tier p = Some "platinum")
      (CurateResponse.platinumProducts
         (Main.base_response format_percent h candidates request max_products now))
  ∧ Forall (λ p, is_bundle p = true)
      (CurateResponse.bundledProducts
         (Main.base_response format_percent h candidates request max_products now))
  ∧ Forall (λ pair, pair.2 `sublist_of` (h <$> candidates))
      (response_pairs
         (Main.base_response format_percent h candidates request max_products now)).
Proof.
  split; [|split; [|split; [|split]]].
  - intros Hmax. simpl. by rewrite py_slice_to_take.
  - unfold response_pairs, Main.base_response. simpl.
    rewrite !Forall_cons, Forall_nil. simpl. rewrite !length_fmap.
    repeat split; apply py_slice_to_ten.
  - simpl. apply Forall_fmap, Forall_forall. intros a Ha.
    apply py_slice_to_subseteq in Ha.
    by apply list_elem_of_filter in Ha as [Ha _].
  - simpl. apply Forall_fmap, Forall_forall. intros a Ha.
    apply py_slice_to_subseteq in Ha.
    by apply list_elem_of_filter in Ha as [Ha _].
  - unfold response_pairs, Main.base_response. simpl.
    rewrite !Forall_cons, Forall_nil. simpl.
    repeat split; apply fmap_sublist;
      (etrans; [apply py_slice_to_sublist|]); try done;
      try apply sublist_filter.
Qed.

(** X11: for a product count that is not negative, no response of the
    handler, rule-based or gateway-derived, lists more curated identifiers
    or more curated records than the product count. *)
Theorem curated_lists_within_max json_loads pydantic_str format_percent
    cfg products llm_client request now h r :
  products ≠ [] →
  0 ≤ Main.effective_max cfg request →
  llm_client = None
  ∨ (∃ o, llm_client = Some (LLMClient.client json_loads pydantic_str o)) →
  (Main.curate_products format_percent cfg products llm_client request now h).2
  = Http200 r →
  (length (CurateResponse.curatedProductIds r)
   ≤ Z.to_nat (Main.effective_max cfg request))%nat
  ∧ (length (CurateResponse.curatedProducts r)
     ≤ Z.to_nat (Main.effective_max cfg request))%nat.
Proof.
  intros Hne Hmax Hclient Hr.
  destruct (curate_products_cases json_loads pydantic_str format_percent cfg
              products llm_client request now h Hne Hclient)
    as [Heq|(llm_response & _ & Heq)];
    rewrite Heq in Hr; injection Hr as <-; simpl;
    rewrite ?length_fmap; split; by apply py_slice_to_length.
Qed.

Lemma curated_lists_within_max_witness :
  ∃ r,
    (Main.curate_products example_format_percent (example_config true)
       acme_catalog (Some (example_client 0.9))
       {| profile := bar_profile; maxProducts := Some 1 |} 0 acme_heap).2
    = Http200 r
    ∧ (length (CurateResponse.curatedProductIds r) ≤ 1)%nat.
Proof.
  eexists. split; [by vm_compute|].
  eapply (curated_lists_within_max (example_json_loads 0.9) Json.as_str
            example_format_percent (example_config true) acme_catalog
            (Some (example_client 0.9))
            {| profile := bar_profile; maxProducts := Some 1 |} 0 acme_heap).
  - discriminate.
  - by vm_compute.
  - right. by eexists.
  - by vm_compute.
Defined.

Section MapSkusMore.
Variables (h : heap) (candidates : list addr).

Lemma sku_to_product_last before a after :
  candidates = before ++ a :: after →
  Forall (λ b, Main.sku_or_id (h b) ≠ Main.sku_or_id (h a)) after →
  Main.sku_to_product h candidates !! Main.sku_or_id (h a) = Some a.
Proof.
  intros -> Hafter. rewrite sku_to_product_lookup.
  rewrite filter_app, filter_cons, decide_True by done.
  assert (Hnil : filter (λ b, Main.sku_or_id (h b) = Main.sku_or_id (h a)) after
                 = []).
  { induction Hafter as [|b l Hb _ IH]; [done|].
    by rewrite filter_cons, decide_False. }
  rewrite Hnil. apply last_snoc.
Qed.

Lemma NoDup_keys_lookup a :
  NoDup (candidate_keys h candidates) → a ∈ candidates →
  Main.sku_to_product h candidates !! Main.sku_or_id (h a) = Some a.
Proof.
  intros Hnd Ha. apply list_elem_of_split in Ha as (before & after & Heq).
  apply (sku_to_product_last before a after Heq).
  unfold candidate_keys in Hnd. rewrite Heq, fmap_app, fmap_cons in Hnd.
  apply NoDup_app in Hnd as (_ & _ & Hnd).
  apply NoDup_cons in Hnd as [Hnotin _].
  apply Forall_forall. intros b Hb Heqk. apply Hnotin.
  rewrite <- Heqk. by apply (list_elem_of_fmap_2 (λ a, Main.sku_or_id (h a))).
Qed.

End MapSkusMore.

(** X12: when the candidates have pairwise distinct identifiers, mapping
    the identifiers of any list of candidates back to records returns
    that list: the remapping undoes the identifier computation. *)
Theorem map_skus_round_trip h candidates (sub : list addr) :
  NoDup (candidate_keys h candidates) →
  sub ⊆ candidates →
  Main._map_skus_to_products h ((λ a, Main.sku_or_id (h a)) <$> sub) candidates
  = sub.
Proof.
  intros Hnd Hsub. unfold Main._map_skus_to_products.
  induction sub as [|a sub IH]; [done|].
  rewrite fmap_cons.
  change (omap ?f (?s :: ?l))
    with (match f s with Some y => y :: omap f l | None => omap f l end).
  cbv beta. rewrite (NoDup_keys_lookup h candidates a Hnd) by (apply Hsub; by left).
  f_equal. apply IH. intros b Hb. apply Hsub. by right.
Qed.

Lemma map_skus_round_trip_witness :
  Main._map_skus_to_products acme_heap ["S3"; "S1"] acme_catalog = [2; 0]%nat.
Proof.
  apply (map_skus_round_trip acme_heap acme_catalog [2; 0]%nat).
  - apply (bool_decide_unpack (NoDup (candidate_keys acme_heap acme_catalog))).
    by vm_compute.
  - apply (bool_decide_unpack ([2; 0]%nat ⊆ acme_catalog)). by vm_compute.
Defined.

(** X13: when several candidates share an identifier, the identifier is
    mapped to the last of them in candidate order, the lowest ranked; the
    earlier ones cannot be reached through it. *)
Theorem map_skus_last_duplicate_wins h before a after :
  Forall (λ b, Main.sku_or_id (h b) ≠ Main.sku_or_id (h a)) after →
  Main._map_skus_to_products h [Main.sku_or_id (h a)] (before ++ a :: after)
  = [a].
Proof.
  intros Hafter. unfold Main._map_skus_to_products.
  change (omap ?f [?s])
    with (match f s with Some y => [y] | None => [] end).
  cbv beta.
  by rewrite (sku_to_product_last h (before ++ a :: after) before a after).
Qed.

Lemma map_skus_last_duplicate_wins_witness :
  Main._map_skus_to_products
    (λ a, example_product (if Nat.eqb a 0 then "first" else "second")
            (Some "DUP") None None)
    ["DUP"] [0; 1]%nat
  = [1%nat].
Proof.
  apply (map_skus_last_duplicate_wins
           (λ a, example_product (if Nat.eqb a 0 then "first" else "second")
                   (Some "DUP") None None)
           [0%nat] 1%nat []).
  constructor.
Defined.

(** * Further properties of the gateway client *)

Section GatewayMore.
Variable json_loads : string → option json.
Variable pydantic_str : json → option string.

#[local] Arguments LLMClient.validate_str_list : simpl never.

Lemma finalize_candidates_accepts_number response content items max_products
    ids reasoning v q platinum bundles favourites insights steps :
  (∀ s, pydantic_str (JStr s) = Some s) →
  LLMClient.message_content response = Some content →
  json_loads content = Some (JObj items) →
  LLMClient.str_list_field items "curatedProductIds" ids →
  LLMClient.str_list_field items "reasoning" reasoning →
  Json.lookup "confidence" items = Some v →
  Json.as_number v = Some q →
  LLMClient.opt_str_list_field items "platinumSupplierProducts" platinum →
  LLMClient.opt_str_list_field items "bundledPacks" bundles →
  LLMClient.opt_str_list_field items "localFavorites" favourites →
  LLMClient.opt_str_list_field items "businessInsights" insights →
  LLMClient.opt_str_list_field items "nextSteps" steps →
  LLMClient.finalize_candidates json_loads pydantic_str
    (PostReturns 200 (Some response)) max_products
  = Some {| LLMResponse.curatedProductIds := py_slice_to ids max_products;
            LLMResponse.reasoning := reasoning;
            LLMResponse.confidence := LLMClient.clamp_confidence q;
            LLMResponse.platinumSupplierProducts := platinum;
            LLMResponse.bundledPacks := bundles;
            LLMResponse.localFavorites := favourites;
            LLMResponse.businessInsights := insights;
            LLMResponse.nextSteps := steps |}.
Proof.
  intros Hstr Hc Hl Hids Hre Hv Hq Hp Hb Hf Hi Hs.
  unfold LLMClient.finalize_candidates. simpl.
  rewrite (message_content_truthy _ _ Hc).
  unfold LLMClient._parse_llm_response. rewrite Hc. simpl. rewrite Hl. simpl.
  unfold LLMClient.str_list_field in Hids, Hre.
  unfold LLMClient.build_response. simpl.
  rewrite Hids. simpl. rewrite Hre. simpl. rewrite Hv. simpl.
  rewrite Hq. simpl.
  rewrite py_slice_to_fmap, (validate_str_list_strings _ _ Hstr). simpl.
  rewrite (validate_str_list_strings _ _ Hstr). simpl.
  rewrite (validate_optional _ _ _ _ Hstr Hp). simpl.
  rewrite (validate_optional _ _ _ _ Hstr Hb). simpl.
  rewrite (validate_optional _ _ _ _ Hstr Hf). simpl.
  rewrite (validate_optional _ _ _ _ Hstr Hi). simpl.
  rewrite (validate_optional _ _ _ _ Hstr Hs). reflexivity.
Qed.

End GatewayMore.

(** X14: for a product count that is not negative, every answer the
    client hands to the handler carries at most that many curated
    identifiers, however many the gateway sent. *)
Theorem accepted_answer_is_bounded json_loads pydantic_str o max_products
    llm_response :
  LLMClient.finalize_candidates json_loads pydantic_str o max_products
    = Some llm_response →
  0 ≤ max_products →
  (length (LLMResponse.curatedProductIds llm_response)
   ≤ Z.to_nat max_products)%nat.
Proof.
  intros Hfin. by destruct (finalize_candidates_Some _ _ _ _ _ Hfin) as (_ & _ & Hlen).
Qed.

Lemma accepted_answer_is_bounded_witness :
  ∃ llm_response,
    LLMClient.finalize_candidates (example_json_loads 5.0) Json.as_str
      (PostReturns 200 (Some example_body)) 1
    = Some llm_response
    ∧ (length (LLMResponse.curatedProductIds llm_response) ≤ Z.to_nat 1)%nat.
Proof.
  eexists. split; [by vm_compute|].
  apply (accepted_answer_is_bounded (example_json_loads 5.0) Json.as_str
           (PostReturns 200 (Some example_body)) 1).
  - by vm_compute.
  - lia.
Defined.

(** X15: an answer that carries only the three required fields, with a
    numeric confidence that [float] converts, is accepted; the five other
    lists of the result are empty, and the curated identifiers are the
    first [max_products] of those sent. *)
Theorem optional_fields_default_to_empty json_loads pydantic_str response
    content items max_products ids reasoning q :
  (∀ s, pydantic_str (JStr s) = Some s) →
  LLMClient.message_content response = Some content →
  json_loads content = Some (JObj items) →
  LLMClient.str_list_field items "curatedProductIds" ids →
  LLMClient.str_list_field items "reasoning" reasoning →
  Json.lookup "confidence" items = Some (JNum q) →
  Json.float_overflow q = false →
  Forall (λ field, Json.lookup field items = None) LLMClient.optional_fields →
  LLMClient.finalize_candidates json_loads pydantic_str
    (PostReturns 200 (Some response)) max_products
  = Some {| LLMResponse.curatedProductIds := py_slice_to ids max_products;
            LLMResponse.reasoning := reasoning;
            LLMResponse.confidence := LLMClient.clamp_confidence q;
            LLMResponse.platinumSupplierProducts := [];
            LLMResponse.bundledPacks := [];
            LLMResponse.localFavorites := [];
            LLMResponse.businessInsights := [];
            LLMResponse.nextSteps := [] |}.
Proof.
  intros Hstr Hc Hl Hids Hre Hq Hov Hopt.
  unfold LLMClient.optional_fields in Hopt.
  rewrite !Forall_cons in Hopt. destruct Hopt as (Hp & Hb & Hf & Hi & Hs & _).
  assert (Hnum : Json.as_number (JNum q) = Some q) by (simpl; by rewrite Hov).
  eapply finalize_candidates_accepts_number; eauto; by right.
Qed.

Lemma optional_fields_default_to_empty_witness :
  LLMClient.finalize_candidates
    (λ _, Some (JObj [("curatedProductIds", JArr [JStr "S1"; JStr "S2"]);
                      ("reasoning", JArr []);
                      ("confidence", JNum 0.5)]))
    Json.as_str (PostReturns 200 (Some example_body)) 1
  = Some {| LLMResponse.curatedProductIds := ["S1"];
            LLMResponse.reasoning := [];
            LLMResponse.confidence := 0.5;
            LLMResponse.platinumSupplierProducts := [];
            LLMResponse.bundledPacks := [];
            LLMResponse.localFavorites := [];
            LLMResponse.businessInsights := [];
            LLMResponse.nextSteps := [] |}.
Proof.
  apply (optional_fields_default_to_empty
           (λ _, Some (JObj [("curatedProductIds", JArr [JStr "S1"; JStr "S2"]);
                             ("reasoning", JArr []);
                             ("confidence", JNum 0.5)]))
           Json.as_str example_body "payload"
           [("curatedProductIds", JArr [JStr "S1"; JStr "S2"]);
            ("reasoning", JArr []); ("confidence", JNum 0.5)]
           1 ["S1"; "S2"] [] 0.5).
  - intros s. reflexivity.
  - reflexivity.
  - reflexivity.
  - reflexivity.
  - reflexivity.
  - reflexivity.
  - reflexivity.
  - repeat constructor.
Defined.

(** X16: a JSON boolean passes the numeric test on [confidence]: an
    otherwise well-formed answer whose confidence is [true] is accepted
    with confidence 1, and one whose confidence is [false] with
    confidence 0. *)
Theorem boolean_confidence_is_accepted json_loads pydantic_str response
    content items max_products ids reasoning (b : bool) :
  (∀ s, pydantic_str (JStr s) = Some s) →
  LLMClient.message_content response = Some content →
  json_loads content = Some (JObj items) →
  LLMClient.str_list_field items "curatedProductIds" ids →
  LLMClient.str_list_field items "reasoning" reasoning →
  Json.lookup "confidence" items = Some (JBool b) →
  Forall (λ field, Json.lookup field items = None) LLMClient.optional_fields →
  ∃ llm_response,
    LLMClient.finalize_candidates json_loads pydantic_str
      (PostReturns 200 (Some response)) max_products
    = Some llm_response
    ∧ LLMResponse.confidence llm_response = (if b then 1%Q else 0%Q).
Proof.
  intros Hstr Hc Hl Hids Hre Hq Hopt.
  unfold LLMClient.optional_fields in Hopt.
  rewrite !Forall_cons in Hopt. destruct Hopt as (Hp & Hb & Hf & Hi & Hs & _).
  eexists. split.
  - eapply finalize_candidates_accepts_number; eauto; try (by right).
  - simpl. by destruct b.
Qed.

Lemma boolean_confidence_is_accepted_witness :
  ∃ llm_response,
    LLMClient.finalize_candidates
      (λ _, Some (JObj [("curatedProductIds", JArr [JStr "S1"]);
                        ("reasoning", JArr []);
                        ("confidence", JBool true)]))
      Json.as_str (PostReturns 200 (Some example_body)) 5
    = Some llm_response
    ∧ LLMResponse.confidence llm_response = 1%Q.
Proof.
  apply (boolean_confidence_is_accepted
           (λ _, Some (JObj [("curatedProductIds", JArr [JStr "S1"]);
                             ("reasoning", JArr []);
                             ("confidence", JBool true)]))
           Json.as_str example_body "payload"
           [("curatedProductIds", JArr [JStr "S1"]);
            ("reasoning", JArr []); ("confidence", JBool true)]
           5 ["S1"] [] true).
  - intros s. reflexivity.
  - reflexivity.
  - reflexivity.
  - reflexivity.
  - reflexivity.
  - reflexivity.
  - repeat constructor.
Defined.

(** * Properties of the catalog loader *)

Section Dict.

Lemma lookup_dict_set_eq k v items :
  Json.lookup k (Loader.dict_set k v items) = Some v.
Proof.
  induction items as [|[k' v'] items IH]; simpl.
  - by rewrite String.eqb_refl.
  - destruct (String.eqb k k') eqn:Hk; simpl; by rewrite Hk.
Qed.

Lemma lookup_dict_set_ne k k' v items :
  k' ≠ k → Json.lookup k' (Loader.dict_set k v items) = Json.lookup k' items.
Proof.
  intros Hne. induction items as [|[k0 v0] items IH]; simpl.
  - destruct (String.eqb_spec k' k); [done|reflexivity].
  - destruct (String.eqb_spec k k0) as [->|Hk]; simpl.
    + destruct (String.eqb_spec k' k0); [done|reflexivity].
    + destruct (String.eqb k' k0); [reflexivity|exact IH].
Qed.

Lemma has_keyword_true text keyword :
  keyword ∈ Loader.bundle_keywords → PyStr.contains keyword text = true →
  Loader.has_keyword text = true.
Proof.
  intros Hin Hc. unfold Loader.has_keyword. apply existsb_exists.
  exists keyword. split; [by apply list_elem_of_In|done].
Qed.

End Dict.

Section LoadRecords.
Variable validate_product : list (string * json) → option Product.

(** The dictionary handed to the model for the record at index [i]. *)
Lemma load_one_Some i record p :
  Loader.load_one validate_product i record = Some p →
  ∃ items items' b,
    record = JObj items
    ∧ validate_product items' = Some p
    ∧ Json.lookup "is_bundle" items' = Some (JBool b)
    ∧ Json.lookup "id" items'
      = Some (default (JStr (pretty i)) (Json.lookup "id" items))
    ∧ Json.lookup "name" items'
      = Some (default (JStr ("Product " +:+ pretty i)) (Json.lookup "name" items))
    ∧ Loader._detect_bundle
        (Loader.dict_set "name"
           (default (JStr ("Product " +:+ pretty i)) (Json.lookup "name" items))
           items) = Some b
    ∧ (∀ k, k ≠ "id" → k ≠ "name" → k ≠ "is_bundle" →
            Json.lookup k items' = Json.lookup k items).
Proof.
  unfold Loader.load_one. intros Hload.
  destruct record as [| | | | |items]; try discriminate. simpl in Hload.
  set (d1 := match Json.lookup "id" items with
             | Some _ => items
             | None => Loader.dict_set "id" (JStr (pretty i)) items
             end) in *.
  set (d2 := match Json.lookup "name" d1 with
             | Some _ => d1
             | None => Loader.dict_set "name" (JStr ("Product " +:+ pretty i)) d1
             end) in *.
  apply bind_Some in Hload as (b & Hb & Hv).
  assert (Hid1 : Json.lookup "id" d1
                 = Some (default (JStr (pretty i)) (Json.lookup "id" items))).
  { subst d1. destruct (Json.lookup "id" items) eqn:Hid; [done|].
    apply lookup_dict_set_eq. }
  assert (Hother1 : ∀ k, k ≠ "id" → Json.lookup k d1 = Json.lookup k items).
  { intros k Hk. subst d1. destruct (Json.lookup "id" items); [done|].
    by apply lookup_dict_set_ne. }
  assert (Hname2 : Json.lookup "name" d2
                   = Some (default (JStr ("Product " +:+ pretty i))
                             (Json.lookup "name" items))).
  { subst d2. rewrite <- (Hother1 "name") by done.
    destruct (Json.lookup "name" d1) eqn:Hn; [done|].
    apply lookup_dict_set_eq. }
  assert (Hother2 : ∀ k, k ≠ "name" → Json.lookup k d2 = Json.lookup k d1).
  { intros k Hk. subst d2. destruct (Json.lookup "name" d1); [done|].
    by apply lookup_dict_set_ne. }
  assert (Hdetect : Loader._detect_bundle d2
                    = Loader._detect_bundle
                        (Loader.dict_set "name"
                           (default (JStr ("Product " +:+ pretty i))
                              (Json.lookup "name" items)) items)).
  { unfold Loader._detect_bundle, Loader.get_lower.
    rewrite Hname2, lookup_dict_set_eq.
    rewrite (Hother2 "product_web_description"),
      (Hother1 "product_web_description"),
      (lookup_dict_set_ne "name" "product_web_description") by done.
    reflexivity. }
  exists items, (Loader.dict_set "is_bundle" (JBool b) d2), b.
  split; [done|]. split; [done|]. split; [apply lookup_dict_set_eq|].
  split; [by rewrite lookup_dict_set_ne, Hother2 by done|].
  split; [by rewrite lookup_dict_set_ne by done|].
  split; [by rewrite <- Hdetect|].
  intros k Hk1 Hk2 Hk3.
  by rewrite lookup_dict_set_ne, Hother2, Hother1.
Qed.

Lemma load_from_app i l1 l2 :
  Loader.load_from validate_product i (l1 ++ l2)
  = Loader.load_from validate_product i l1
    ++ Loader.load_from validate_product (i + length l1) l2.
Proof.
  revert i. induction l1 as [|r l1 IH]; intros i; simpl.
  - by rewrite Nat.add_0_r.
  - rewrite IH. replace (S i + length l1)%nat with (i + S (length l1))%nat by lia.
    by destruct (Loader.load_one validate_product i r).
Qed.

Lemma load_from_length i l :
  (length (Loader.load_from validate_product i l) ≤ length l)%nat.
Proof.
  revert i. induction l as [|r l IH]; intros i; simpl; [done|].
  specialize (IH (S i)).
  destruct (Loader.load_one validate_product i r); simpl; lia.
Qed.

Lemma load_from_elem i l p :
  p ∈ Loader.load_from validate_product i l →
  ∃ j record, l !! j = Some record
              ∧ Loader.load_one validate_product (i + j) record = Some p.
Proof.
  revert i. induction l as [|r l IH]; intros i; simpl.
  { intros Hp. by apply elem_of_nil in Hp. }
  destruct (Loader.load_one validate_product i r) as [q|] eqn:Hr.
  - intros Hp. apply elem_of_cons in Hp as [->|Hp].
    + exists 0%nat, r. by rewrite Nat.add_0_r.
    + destruct (IH _ Hp) as (j & record & Hj & Hload).
      exists (S j), record. split; [done|].
      by replace (i + S j)%nat with (S i + j)%nat by lia.
  - intros Hp. destruct (IH _ Hp) as (j & record & Hj & Hload).
    exists (S j), record. split; [done|].
    by replace (i + S j)%nat with (S i + j)%nat by lia.
Qed.

End LoadRecords.

(** X17: a record whose name is a string containing one of the bundle
    keywords, in any letter case, is detected as a bundle whatever its
    description is, even one that is not a string; a record with neither
    name nor description is not a bundle. *)
Theorem detect_bundle_by_name product_data name_value keyword :
  Json.lookup "name" product_data = Some (JStr name_value) →
  keyword ∈ Loader.bundle_keywords →
  PyStr.contains keyword (PyStr.lower name_value) = true →
  Loader._detect_bundle product_data = Some true
  ∧ Loader._detect_bundle [] = Some false.
Proof.
  intros Hname Hkw Hc. split; [|reflexivity].
  unfold Loader._detect_bundle, Loader.get_lower. rewrite Hname. simpl.
  by rewrite (has_keyword_true _ keyword Hkw Hc).
Qed.

Lemma detect_bundle_by_name_witness :
  Loader._detect_bundle
    [("name", JStr "Summer Gift PACK"); ("product_web_description", JNull)]
  = Some true.
Proof.
  apply (detect_bundle_by_name
           [("name", JStr "Summer Gift PACK"); ("product_web_description", JNull)]
           "Summer Gift PACK" "pack").
  - reflexivity.
  - apply (bool_decide_unpack ("pack" ∈ Loader.bundle_keywords)). by vm_compute.
  - by vm_compute.
Defined.



(** X19: every product the loader returns was built from a dictionary
    record of the file, with the record's own keys except that [id] and
    [name] are filled in from the record's index when missing
    ([str(i)] and "Product i") and [is_bundle] is set to the result of
    the bundle detection, replacing any value the file gives. *)
Theorem loaded_product_provenance validate_product products_data p :
  p ∈ Loader.load_from validate_product 0 products_data →
  ∃ (i : nat) items items' b,
    products_data !! i = Some (JObj items)
    ∧ validate_product items' = Some p
    ∧ Json.lookup "is_bundle" items' = Some (JBool b)
    ∧ Json.lookup "id" items'
      = Some (default (JStr (pretty i)) (Json.lookup "id" items))
    ∧ Json.lookup "name" items'
      = Some (default (JStr ("Product " +:+ pretty i)) (Json.lookup "name" items))
    ∧ Loader._detect_bundle
        (Loader.dict_set "name"
           (default (JStr ("Product " +:+ pretty i)) (Json.lookup "name" items))
           items) = Some b
    ∧ (∀ k, k ≠ "id" → k ≠ "name" → k ≠ "is_bundle" →
            Json.lookup k items' = Json.lookup k items).
Proof.
  intros Hp. apply load_from_elem in Hp as (i & record & Hi & Hload).
  simpl in Hload.
  apply load_one_Some in Hload
    as (items & items' & b & -> & Hv & Hb & Hid & Hname & Hd & Hother).
  exists i, items, items', b. repeat split; done.
Qed.

(** X20: the loader handles records one by one: loading a concatenation
    is loading the first part and then the second from the index where it
    starts; the result is never longer than the file's list, and an empty
    list gives an empty catalog. *)
Theorem load_records_compose validate_product i l1 l2 :
  Loader.load_from validate_product i (l1 ++ l2)
  = Loader.load_from validate_product i l1
    ++ Loader.load_from validate_product (i + length l1) l2
  ∧ (length (Loader.load_from validate_product i l1) ≤ length l1)%nat
  ∧ Loader.load_products validate_product (Some (Some (JArr []))) = inr [].
Proof.
  split; [apply load_from_app|]. split; [apply load_from_length|reflexivity].
Qed.

(** X21: [load_products] accepts a bare array and an object whose
    [products] entry is an array, with the same result for the same
    array; a missing file is [FileNotFoundError], and an undecodable file,
    any other JSON value, an object without [products] or with a
    [products] entry that is not an array is [ValueError]. *)
Theorem load_products_outcome validate_product file :
  match Loader.load_products validate_product file with
  | inr products =>
      ∃ products_data,
        products = Loader.load_from validate_product 0 products_data
        ∧ (file = Some (Some (JArr products_data))
           ∨ ∃ items, file = Some (Some (JObj items))
                      ∧ Json.lookup "products" items = Some (JArr products_data))
  | inl FileNotFoundError => file = None
  | inl ValueError =>
      file = Some None
      ∨ ∃ data, file = Some (Some data)
                ∧ Json.as_list data = None
                ∧ ∀ items, data = JObj items →
                    ∀ l, Json.lookup "products" items ≠ Some (JArr l)
  end.
Proof.
  destruct file as [[data|]|]; simpl; [| by left | done].
  destruct data as [| | | |l|items]; simpl;
    try (right; eexists; split; [done|]; split; [done|]; by intros).
  - eexists. split; [done|]. by left.
  - destruct (Json.lookup "products" items) as [v|] eqn:Hv.
    + destruct v as [| | | |l|];
        try (right; eexists; split; [done|]; split; [done|];
             intros ? [= <-] ?; by rewrite Hv).
      eexists. split; [done|]. right. by eexists.
    + right. eexists. split; [done|]. split; [done|].
      intros ? [= <-] ?. by rewrite Hv.
Qed.

Lemma loaded_product_provenance_witness :
  ∃ (i : nat) items,
    [JNum 7; JObj [("name", JStr "Shiraz"); ("is_bundle", JBool true)]] !! i
    = Some (JObj items)
    ∧ Json.lookup "name" items = Some (JStr "Shiraz").
Proof.
  destruct (loaded_product_provenance
              (λ _, Some (example_product "1" None None None))
              [JNum 7; JObj [("name", JStr "Shiraz"); ("is_bundle", JBool true)]]
              (example_product "1" None None None))
    as (i & items & items' & b & Hi & _).
  - vm_compute. apply list_elem_of_here.
  - exists i, items. split; [exact Hi|].
    destruct i as [|[|i]]; simpl in Hi; [discriminate| |discriminate].
    by injection Hi as <-.
Defined.

(** * Properties of the catalog summary *)

Section Counting.
Variable attribute : Product → option string.

Lemma count_of_bump k c counts :
  Loader.count_of k (Main.bump c counts)
  = if String.eqb k c then S (Loader.count_of k counts)
    else Loader.count_of k counts.
Proof.
  induction counts as [|[c' n] counts IH]; simpl.
  - by destruct (String.eqb k c).
  - destruct (String.eqb_spec c c') as [->|Hc]; simpl.
    + by destruct (String.eqb k c').
    + destruct (String.eqb_spec k c') as [->|Hk]; [|exact IH].
      by destruct (String.eqb_spec c' c); [congruence|].
Qed.

Lemma bump_keys c counts :
  NoDup counts.*1 → Forall (λ x, (0 < x.2)%nat) counts →
  NoDup (Main.bump c counts).*1 ∧ Forall (λ x, (0 < x.2)%nat) (Main.bump c counts)
  ∧ (∀ k, k ∈ (Main.bump c counts).*1 ↔ k = c ∨ k ∈ counts.*1).
Proof.
  induction counts as [|[c' n] counts IH]; simpl; intros Hnd Hpos.
  { split; [|split].
    - apply NoDup_singleton.
    - repeat constructor.
    - intros k. rewrite list_elem_of_singleton, elem_of_nil. tauto. }
  apply NoDup_cons in Hnd as [Hnotin Hnd].
  apply Forall_cons in Hpos as [Hn Hpos].
  destruct (String.eqb_spec c c') as [->|Hc]; simpl.
  - split; [by apply NoDup_cons|]. split.
    + apply Forall_cons. split; [simpl; lia|done].
    + intros k. rewrite !elem_of_cons. tauto.
  - destruct (IH Hnd Hpos) as (IHnd & IHpos & IHkeys).
    split; [|split].
    + apply NoDup_cons. split; [|done]. rewrite IHkeys. intros [->|?]; done.
    + by apply Forall_cons.
    + intros k. rewrite !elem_of_cons, IHkeys. tauto.
Qed.

Lemma count_of_elem k n counts :
  NoDup counts.*1 → (k, n) ∈ counts → Loader.count_of k counts = n.
Proof.
  induction counts as [|[c m] counts IH]; simpl; intros Hnd Hin.
  { by apply elem_of_nil in Hin. }
  apply NoDup_cons in Hnd as [Hnotin Hnd].
  apply elem_of_cons in Hin as [[= -> ->]|Hin].
  - by rewrite String.eqb_refl.
  - destruct (String.eqb_spec k c) as [->|_]; [|by apply IH].
    exfalso. apply Hnotin. by apply (list_elem_of_fmap_2 fst) in Hin.
Qed.

Lemma count_by_fold products : ∀ counts,
  NoDup counts.*1 → Forall (λ x, (0 < x.2)%nat) counts →
  let result :=
    foldl (λ counts p,
             if PyStr.truthy (attribute p)
             then Main.bump (get (attribute p)) counts else counts)
          counts products in
  NoDup result.*1 ∧ Forall (λ x, (0 < x.2)%nat) result
  ∧ ∀ k, Loader.count_of k result
         = (Loader.count_of k counts + Loader.filed attribute k products)%nat.
Proof.
  unfold Loader.filed.
  induction products as [|p products IH]; intros counts Hnd Hpos; simpl.
  { split; [done|]. split; [done|]. intros k. lia. }
  destruct (PyStr.truthy (attribute p)) eqn:Ht.
  - destruct (bump_keys (get (attribute p)) counts Hnd Hpos) as (Hnd' & Hpos' & _).
    destruct (IH _ Hnd' Hpos') as (Hr1 & Hr2 & Hr3).
    split; [done|]. split; [done|].
    intros k. rewrite Hr3, count_of_bump, filter_cons.
    destruct (String.eqb_spec k (get (attribute p))) as [->|Hk].
    + rewrite decide_True by done. simpl. lia.
    + rewrite decide_False by (intros [_ ?]; congruence). lia.
  - destruct (IH _ Hnd Hpos) as (Hr1 & Hr2 & Hr3).
    split; [done|]. split; [done|].
    intros k. rewrite Hr3, filter_cons.
    rewrite decide_False by (intros [? _]; congruence). lia.
Qed.

Lemma count_by_spec products :
  NoDup (Loader.count_by attribute products).*1
  ∧ ∀ k n, (k, n) ∈ Loader.count_by attribute products →
           (0 < n)%nat ∧ n = Loader.filed attribute k products.
Proof.
  destruct (count_by_fold products [] (NoDup_nil_2) (Forall_nil_2 _))
    as (Hnd & Hpos & Hcount).
  split; [exact Hnd|]. intros k n Hin. split.
  - rewrite Forall_forall in Hpos. apply (Hpos _ Hin).
  - rewrite <- (count_of_elem k n _ Hnd Hin). apply Hcount.
Qed.

End Counting.

Lemma Sorted_mono {A} (R R' : A → A → Prop) l :
  (∀ x y, R x y → R' x y) → Sorted R l → Sorted R' l.
Proof.
  intros Himp. induction 1 as [|x l Hs IH Hhd]; constructor; [exact IH|].
  destruct Hhd; constructor. by apply Himp.
Qed.

Lemma top_ten_sorted counts :
  StronglySorted (λ x y : string * nat, (y.2 ≤ x.2)%nat) (Loader.top_ten counts).
Proof.
  unfold Loader.top_ten.
  apply (StronglySorted_app_1_l _ _
           (drop 10 (sorted_reverse Nat.ltb snd counts))).
  rewrite take_drop. apply Sorted_StronglySorted.
  { intros x y z ??. lia. }
  eapply Sorted_mono;
    [|apply (sorted_reverse_sorted Nat.ltb (snd : string * nat → nat))].
  - intros x y Hxy. apply Nat.ltb_ge in Hxy. exact Hxy.
  - intros k1 k2 Hlt. apply Nat.ltb_lt in Hlt. apply Nat.ltb_ge. lia.
Qed.

Lemma top_ten_subseteq counts : Loader.top_ten counts ⊆ counts.
Proof.
  unfold Loader.top_ten. intros x Hx. apply subseteq_take in Hx.
  by rewrite sorted_reverse_perm in Hx.
Qed.

Lemma count_of_positive_elem k counts :
  (0 < Loader.count_of k counts)%nat → (k, Loader.count_of k counts) ∈ counts.
Proof.
  induction counts as [|[c n] counts IH]; simpl; [lia|].
  destruct (String.eqb_spec k c) as [->|Hk]; intros Hpos.
  - apply list_elem_of_here.
  - apply list_elem_of_further. by apply IH.
Qed.

Lemma filter_test_fmap_length {A B} (f : A → B) (c : B → bool) (l : list A) :
  length (filter (λ b, c b = true) (f <$> l))
  = length (filter (λ a, c (f a) = true) l).
Proof.
  induction l as [|a l IH]; [done|].
  rewrite fmap_cons, !filter_cons.
  destruct (c (f a)) eqn:Hc.
  - rewrite !decide_True by done. simpl. by rewrite IH.
  - rewrite !decide_False by done. exact IH.
Qed.

Lemma summary_fields products :
  total (Loader.get_products_summary products) = length products
  ∧ visible (Loader.get_products_summary products)
    = length (filter (λ p, is_visible p = true) products)
  ∧ bundles (Loader.get_products_summary products)
    = length (filter (λ p, is_bundle p = true) products).
Proof. by destruct products. Qed.

Lemma top_ten_is_ranking attribute products :
  is_ranking attribute products
    (Loader.top_ten (Loader.count_by attribute products)).
Proof.
  destruct (count_by_fold attribute products [] (NoDup_nil_2) (Forall_nil_2 _))
    as (Hnd & Hpos & Hcount).
  change (foldl _ [] products) with (Loader.count_by attribute products) in *.
  pose proof (sorted_reverse_perm Nat.ltb (snd : string * nat → nat)
                (Loader.count_by attribute products)) as Hperm.
  assert (Hsorted : StronglySorted (λ x y : string * nat, (y.2 ≤ x.2)%nat)
            (sorted_reverse Nat.ltb snd (Loader.count_by attribute products))).
  { apply Sorted_StronglySorted; [intros x y z ??; lia|].
    eapply Sorted_mono;
      [|apply (sorted_reverse_sorted Nat.ltb (snd : string * nat → nat))].
    - intros x y Hxy. apply Nat.ltb_ge in Hxy. exact Hxy.
    - intros k1 k2 Hlt. apply Nat.ltb_lt in Hlt. apply Nat.ltb_ge. lia. }
  assert (Hnd' : NoDup
            (sorted_reverse Nat.ltb snd (Loader.count_by attribute products)).*1)
    by (by rewrite Hperm).
  unfold is_ranking, Loader.top_ten.
  rewrite <- (take_drop 10 (sorted_reverse Nat.ltb snd _)) in Hsorted, Hnd', Hperm.
  rewrite fmap_app in Hnd'. apply NoDup_app in Hnd' as (Hnd1 & _ & _).
  apply StronglySorted_app in Hsorted as (Hcross & Hs1 & _).
  split; [rewrite length_take; lia|]. split; [exact Hnd1|]. split; [exact Hs1|].
  split.
  - intros k n Hin.
    assert (Hin' : (k, n) ∈ Loader.count_by attribute products).
    { rewrite <- Hperm. apply elem_of_app. by left. }
    split.
    + rewrite Forall_forall in Hpos. apply (Hpos _ Hin').
    + rewrite <- (count_of_elem k n _ Hnd Hin'). apply Hcount.
  - intros k x Hk Hx.
    destruct (Nat.eq_dec (Loader.filed attribute k products) 0%nat) as [Hz|Hne];
      [rewrite Hz; lia|].
    assert (Hin : (k, Loader.filed attribute k products)
                  ∈ Loader.count_by attribute products).
    { specialize (Hcount k). simpl in Hcount. rewrite <- Hcount.
      apply count_of_positive_elem. rewrite Hcount. lia. }
    rewrite <- Hperm in Hin. apply elem_of_app in Hin as [Hin|Hin].
    + exfalso. apply Hk. by apply (list_elem_of_fmap_2 fst) in Hin.
    + apply (Hcross x (k, Loader.filed attribute k products) Hx Hin).
Qed.

(** X22: the summary of a catalog counts every product, never reports
    more visible products or more bundles than products, and its visible
    count is the length of the ranking the scorer produces for that
    catalog, whatever the profile. *)
Theorem summary_counts h products profile :
  total (Loader.get_products_summary (h <$> products)) = length products
  ∧ (visible (Loader.get_products_summary (h <$> products)) ≤ length products)%nat
  ∧ (bundles (Loader.get_products_summary (h <$> products)) ≤ length products)%nat
  ∧ visible (Loader.get_products_summary (h <$> products))
    = length (score_products h products profile).2.
Proof.
  rewrite (Permutation_length (score_products_scored h products profile)).
  destruct (summary_fields (h <$> products)) as (-> & -> & ->).
  rewrite <- (length_fmap h products) at 1 2 3.
  split; [done|]. split; [apply length_filter|]. split; [apply length_filter|].
  apply (filter_test_fmap_length h is_visible).
Qed.

(** X23: for a catalog that is not empty, both rankings of the summary
    (categories and suppliers) list at most ten distinct values in
    descending order of count, each with the exact number of products
    carrying it, and no value left out is carried by more products than a
    listed one; for an empty catalog the summary has no rankings. *)
Theorem summary_rankings products :
  products ≠ [] →
  (∃ categories suppliers,
     top_categories (Loader.get_products_summary products) = Some categories
     ∧ top_suppliers (Loader.get_products_summary products) = Some suppliers
     ∧ is_ranking category_level_1 products categories
     ∧ is_ranking supplier products suppliers)
  ∧ top_categories (Loader.get_products_summary []) = None
  ∧ top_suppliers (Loader.get_products_summary []) = None.
Proof.
  intros Hne. split; [|done].
  destruct products as [|p l]; [done|].
  eexists _, _. split; [reflexivity|]. split; [reflexivity|].
  split; apply top_ten_is_ranking.
Qed.

Lemma summary_rankings_witness :
  ∃ categories,
    top_categories (Loader.get_products_summary (acme_heap <$> acme_catalog))
    = Some categories
    ∧ (length categories ≤ 10)%nat.
Proof.
  destruct (summary_rankings (acme_heap <$> acme_catalog))
    as [(categories & suppliers & Hc & _ & (Hlen & _) & _) _].
  - discriminate.
  - exists categories. split; [exact Hc|exact Hlen].
Defined.

(** * Further properties: categories and the rule-based pipeline *)

Lemma classify_names level c :
  classify level = Some c → c ∈ category_names.
Proof.
  unfold classify, category_names.
  repeat match goal with
  | |- context [if ?b then _ else _] => destruct b
  end; intros [= <-]; apply (bool_decide_unpack _); by vm_compute.
Qed.

(** X24: the category of a product is always one of the six keys of the
    venue tables; a first category level that mentions "wine", in any
    letter case, makes the product a wine whatever else that level or the
    other levels mention ("Sparkling Wine" is scored as wine), and a
    product without category levels falls under "default". *)
Theorem extract_category_cases p :
  _extract_category p ∈ category_names
  ∧ (∀ level, category_level_1 p = Some level →
       PyStr.contains "wine" (PyStr.lower level) = true →
       _extract_category p = "wine")
  ∧ (category_level_1 p = None → category_level_2 p = None →
     category_level_3 p = None → _extract_category p = "default").
Proof.
  split; [|split].
  - unfold _extract_category.
    destruct (classify (category_level_1 p)) eqn:H1;
      [by eapply classify_names|].
    destruct (classify (category_level_2 p)) eqn:H2;
      [by eapply classify_names|].
    destruct (classify (category_level_3 p)) eqn:H3;
      [by eapply classify_names|].
    apply (bool_decide_unpack _). by vm_compute.
  - intros level Hl Hw. unfold _extract_category, classify. rewrite Hl.
    destruct level as [|c level]; [discriminate Hw|].
    cbn [PyStr.truthy String.eqb negb get default from_option Datatypes.id].
    by rewrite Hw.
  - intros H1 H2 H3. unfold _extract_category, classify.
    by rewrite H1, H2, H3.
Qed.

(** X25: when the gateway takes no part, the curated records of the
    response are the top of the ranking: the first products of the scored
    output, as many as the smaller of the product count and the
    preselection width, in ranking order. *)
Theorem deterministic_curated_is_top_of_ranking json_loads pydantic_str
    format_percent cfg products llm_client request now h :
  products ≠ [] →
  0 ≤ Main.effective_max cfg request →
  gateway_unavailable json_loads pydantic_str cfg llm_client
    (Main.effective_max cfg request) →
  ∃ r,
    Main.curate_products format_percent cfg products llm_client request now h
    = (Main.request_heap h products request, Http200 r)
    ∧ CurateResponse.curatedProducts r
      = Main.request_heap h products request
        <$> take (Z.to_nat (Main.effective_max cfg request)
                  `min` Z.to_nat (TOP_K_PRESELECT cfg))
              (score_products h products (profile request)).2
    ∧ CurateResponse.curatedProductIds r
      = Main.sku_or_id <$> CurateResponse.curatedProducts r.
Proof.
  intros Hne Hmax Hgw. eexists. split.
  { by apply (curate_products_fallback json_loads pydantic_str). }
  simpl. rewrite py_slice_to_take by done.
  unfold Main.request_candidates. rewrite select_candidates_prefix, take_take.
  split; [reflexivity|]. by rewrite <- list_fmap_compose.
Qed.

Lemma deterministic_curated_is_top_of_ranking_witness :
  ∃ r,
    (Main.curate_products example_format_percent (example_config false)
       acme_catalog None {| profile := bar_profile; maxProducts := Some 2 |}
       0 acme_heap).2 = Http200 r
    ∧ length (CurateResponse.curatedProducts r) = 2%nat.
Proof.
  destruct (deterministic_curated_is_top_of_ranking (example_json_loads 0.9)
              Json.as_str example_format_percent (example_config false)
              acme_catalog None
              {| profile := bar_profile; maxProducts := Some 2 |} 0 acme_heap)
    as (r & Heq & Hcur & _).
  - discriminate.
  - by vm_compute.
  - by apply gateway_disabled.
  - exists r. rewrite Heq. split; [reflexivity|].
    rewrite Hcur. by vm_compute.
Defined.
